(** * Project_manager and Broker: a shallow embedding of [src/main.cpp]

    The source file holds two programs.  [Project_manager] creates, opens,
    renames and erases a project (a metadata file plus two companion
    artefacts).  [Broker] parses a command line, clears stage flags in the
    metadata file and launches the external tools in a fixed order.

    Modelling decisions, all visible in the definitions below:
    - the filesystem is a finite map from path strings to nodes; two paths
      are the same file exactly when they are the same string (no links,
      names compared as they are written), and a path lies below a
      directory when it continues the directory's path after a '/';
    - what a directory holds is what the map stores below its path,
      together with a listing the directory node carries for entries that
      are not modelled further; both count for the emptiness tests of
      [remove] and [rename];
    - a regular file holds either a JSON document or text that the JSON
      parser rejects; writing a document and reading it back yields the
      same document (numbers are integers, no floating point);
    - strings are text: a command-line argument, like a string read from
      a document, is valid UTF-8, so that serialising a record does not
      throw;
    - the JSON library is not part of the source file; the few operations
      the programs use ([at], [operator[]], conversions, the generated
      [to_json] and [from_json]) follow its documented behaviour, an
      object being a map with sorted, unique keys;
    - filesystem calls throw in the cases the nodes decide (a directory
      that is not empty, a file renamed onto a directory, a missing
      directory to put a new name in, ...) and succeed otherwise: access
      is permitted everywhere, paths are within the limits of the
      operating system, and [exists] answers without throwing;
    - [exit], exceptions and undefined behaviour are outcomes of a small
      monad over the world a program acts on;
    - an external process is a function from the command line and the
      filesystem to an exit status and a new filesystem;
    - console output is not modelled. *)

From Stdlib Require Import ZArith Ascii String List Lia.
From stdpp Require Import gmap strings.

Set Warnings "-register-all".

Local Open Scope string_scope.

(** ** JSON values (the part of nlohmann::json the programs rely on) *)

Inductive json : Type :=
  | JNull
  | JBool (b : bool)
  | JNum (z : Z)
  | JStr (s : string)
  | JArr (l : list json)
  | JObj (m : gmap string json).

Module Json.

(** [j.at(key)]: the member of an object; anything else throws. *)
Definition at_key (key : string) (j : json) : option json :=
  match j with
  | JObj m => m !! key
  | _ => None
  end.

(** [j[key]] on a mutable value, read side: null behaves as an empty
    object, a missing member reads as null, other kinds throw. *)
Definition index (key : string) (j : json) : option json :=
  match j with
  | JNull => Some JNull
  | JObj m => Some (default JNull (m !! key))
  | _ => None
  end.

(** [j[key] = ...] through the reference returned by [operator[]]:
    [f] is what is done to the member. *)
Definition update (key : string) (f : json → option json) (j : json)
  : option json :=
  match j with
  | JNull => v ← f JNull; Some (JObj {[ key := v ]})
  | JObj m => v ← f (default JNull (m !! key)); Some (JObj (<[ key := v ]> m))
  | _ => None
  end.

Definition get_bool (j : json) : option bool :=
  match j with
  | JBool b => Some b
  | _ => None
  end.

Definition get_string (j : json) : option string :=
  match j with
  | JStr s => Some s
  | _ => None
  end.

(** Conversion to a 32-bit [int]: [static_cast<int>] wraps around. *)
Definition wrap_int (z : Z) : Z :=
  ((z + 2147483648) mod 4294967296 - 2147483648)%Z.

(** [get_to(int&)]: numbers and booleans convert, the rest throws. *)
Definition get_int (j : json) : option Z :=
  match j with
  | JNum z => Some (wrap_int z)
  | JBool b => Some (if b then 1%Z else 0%Z)
  | _ => None
  end.

End Json.

(** ** Filesystem *)

Inductive content : Type :=
  | Garbage
  | Doc (j : json).

Inductive node : Type :=
  | File (c : content)
  | Dir (entries : list string).

Abbreviation FS := (gmap string node).

Module Fs.

(** [exists(p)] *)
Definition exists_ (p : string) (fs : FS) : bool :=
  match fs !! p with
  | Some _ => true
  | None => false
  end.

(** *** Paths *)

(** The beginnings of [s] that a '/' follows, shortest first, each
    written after [acc]. *)
Fixpoint cuts (acc s : string) : list string :=
  match s with
  | EmptyString => []
  | String c s' =>
      let rest := cuts (acc +:+ String c EmptyString) s' in
      if Ascii.eqb c "/"%char then acc :: rest else rest
  end.

(** The directory a path puts its last component in: what stands before
    the last '/'. *)
Definition parent (p : string) : string := List.last (cuts "" p) "".

(** [k] lies below the directory [d]. *)
Definition below (d k : string) : bool := String.prefix (d +:+ "/") k.

(** [k] is [d] or lies below it. *)
Definition within (d k : string) : bool := String.eqb k d || below d k.

(** [s] without its first [n] characters. *)
Fixpoint drop (n : nat) (s : string) : string :=
  match n, s with
  | S n', String _ s' => drop n' s'
  | _, _ => s
  end.

Definition is_directory (p : string) (fs : FS) : bool :=
  match fs !! p with
  | Some (Dir _) => true
  | _ => false
  end.

(** Some node is stored below [p]. *)
Definition has_below (p : string) (fs : FS) : bool :=
  bool_decide (map_Exists (λ k _, below p k = true) fs).

(** A directory with the listing [entries] at [p] holds nothing. *)
Definition is_empty (entries : list string) (p : string) (fs : FS) : bool :=
  match entries with
  | [] => negb (has_below p fs)
  | _ :: _ => false
  end.

(** [ofstream(p) << text]: an existing regular file is truncated and
    written; a new file is made when the directory it goes in exists;
    in every other case (the path is a directory, the directory is
    missing or is a regular file) the stream fails to open and the
    insertion does nothing, silently. *)
Definition write (p : string) (c : content) (fs : FS) : FS :=
  match fs !! p with
  | Some (Dir _) => fs
  | Some (File _) => <[ p := File c ]> fs
  | None => if is_directory (parent p) fs then <[ p := File c ]> fs else fs
  end.

(** Reading a whole file and parsing it as JSON; [None] is a parse
    error (a directory reads as empty input). *)
Definition parse (p : string) (fs : FS) : option json :=
  match fs !! p with
  | Some (File (Doc j)) => Some j
  | _ => None
  end.

(** [std::filesystem::remove(p)]: throws on a directory that is not
    empty; a missing path is not an error. *)
Definition remove (p : string) (fs : FS) : option FS :=
  match fs !! p with
  | Some (Dir entries) =>
      if is_empty entries p fs then Some (delete p fs) else None
  | _ => Some (delete p fs)
  end.

(** [std::filesystem::remove_all(p)]: [p] and everything below it. *)
Definition remove_all (p : string) (fs : FS) : FS :=
  filter (λ kv, within p kv.1 = false) fs.

(** What lies below [old], put below [new]. *)
Definition moved (old new : string) (fs : FS) : FS :=
  list_to_map
    ((λ kv : string * node, (new +:+ drop (String.length old) kv.1, kv.2))
       <$> map_to_list (filter (λ kv, below old kv.1 = true) fs)).

(** [std::filesystem::rename(old, new)] with the POSIX rules: a missing
    source throws; renaming a path onto itself does nothing; a file
    replaces a file, a directory replaces an empty directory and takes
    along what lies below it; a new name is made only in a directory
    that exists; every other case throws. *)
Definition rename (old new : string) (fs : FS) : option FS :=
  match fs !! old with
  | None => None
  | Some n =>
      if String.eqb old new then Some fs
      else
        match n with
        | File _ =>
            let done := Some (<[ new := n ]> (delete old fs)) in
            match fs !! new with
            | Some (Dir _) => None
            | Some (File _) => done
            | None => if is_directory (parent new) fs then done else None
            end
        | Dir _ =>
            let done :=
              Some (<[ new := n ]> (moved old new fs ∪ remove_all old fs)) in
            if below old new then None
            else
              match fs !! new with
              | Some (File _) => None
              | Some (Dir entries) =>
                  if is_empty entries new fs then done else None
              | None => if is_directory (parent new) fs then done else None
              end
        end
  end.

(** [mkdir(d)] as [create_directories] uses it: an existing directory
    is left alone, a regular file in the way throws. *)
Definition make_directory (d : string) (fs : FS) : option FS :=
  match fs !! d with
  | Some (File _) => None
  | Some (Dir _) => Some fs
  | None => Some (<[ d := Dir [] ]> fs)
  end.

(** The directories [create_directories(p)] goes through: the
    beginnings of [p] that a '/' follows, then [p]. *)
Definition directories (p : string) : list string :=
  (filter (λ d : string, d ≠ "") (cuts "" p) ++ [p])%list.

(** [create_directories(p)]: throws on the empty path and on a regular
    file in the way; makes [p] and every directory above it that is
    missing. *)
Definition create_directories (p : string) (fs : FS) : option FS :=
  if String.eqb p "" then None
  else foldl (λ acc d, acc ≫= make_directory d) (Some fs) (directories p).

End Fs.

(** ** Programs that may leave through [exit] or throw *)

Inductive outcome : Type :=
  | Exit (code : Z)      (* exit(code), or return code from main *)
  | Abort                (* an exception nobody catches: std::terminate *)
  | Undefined.           (* undefined behaviour *)

(** One run of a piece of code from a world [w]: it falls through with a
    value, leaves the program, or throws.  The world reached so far is
    kept in every case, so effects made before a throw stay visible. *)
Inductive step (W A : Type) : Type :=
  | Next (a : A) (w : W)
  | Done (o : outcome) (w : W)
  | Raised (w : W).
Arguments Next {W A} a w.
Arguments Done {W A} o w.
Arguments Raised {W A} w.

Definition prog (W A : Type) : Type := W → step W A.

#[global] Instance prog_ret {W} : MRet (prog W) :=
  λ A (a : A) w, Next a w.

#[global] Instance prog_bind {W} : MBind (prog W) :=
  λ A B (k : A → prog W B) (c : prog W A) w,
    match c w with
    | Next a w' => k a w'
    | Done o w' => Done o w'
    | Raised w' => Raised w'
    end.

Definition leave {W A} (o : outcome) : prog W A := λ w, Done o w.
Definition exit {W A} (code : Z) : prog W A := leave (Exit code).
Definition throw {W A} : prog W A := λ w, Raised w.
Definition get_world {W} : prog W W := λ w, Next w w.
Definition modify {W} (f : W → W) : prog W unit := λ w, Next tt (f w).

(** An operation on the world that throws where [op] is undefined. *)
Definition attempt {W} (op : W → option W) : prog W unit :=
  λ w, match op w with
       | Some w' => Next tt w'
       | None => Raised w
       end.

(** [try { body } catch (exception e) { handler }] *)
Definition try_catch {W A} (body handler : prog W A) : prog W A :=
  λ w, match body w with
       | Raised w' => handler w'
       | r => r
       end.

(** What the operating system sees of [main]: falling off the end is
    [return 0], an exception in flight ends in [std::terminate]. *)
Definition run_main {W} (body : prog W unit) (w : W) : outcome * W :=
  match body w with
  | Next _ w' => (Exit 0, w')
  | Done o w' => (o, w')
  | Raised w' => (Abort, w')
  end.

(** ** Project_manager (first program of [src/main.cpp]) *)

Module Project_manager.

Record ProjectMetadata := { name : string }.

Record GraphVerilogMetadata := {
  graphSerialized : bool;
  verilogGenerated : bool }.

Record QuartusMetadata := {
  quartusCompiled : bool;
  deviceName : string }.

Record DatabaseMetadata := {
  dbIp : string;
  dbUsername : string;
  dbPassword : string;
  dbName : string;
  dbPort : Z;
  writtenToDB : bool }.

Record ProjectSettings := {
  projectMetadata : ProjectMetadata;
  graphVerilogMetadata : GraphVerilogMetadata;
  quartusMetadata : QuartusMetadata;
  databaseMetadata : DatabaseMetadata }.

(** The member initialisers of the classes: what a default-constructed
    [ProjectSettings] holds. *)
Definition default_settings : ProjectSettings :=
  {| projectMetadata := {| name := "" |};
     graphVerilogMetadata :=
       {| graphSerialized := false; verilogGenerated := false |};
     quartusMetadata :=
       {| quartusCompiled := false; deviceName := "5CGXFC9E7F35C8" |};
     databaseMetadata :=
       {| dbIp := ""; dbUsername := ""; dbPassword := ""; dbName := "";
          dbPort := (-1)%Z; writtenToDB := false |} |}.

(** [projectSettings.projectMetadata.name = n] *)
Definition set_name (n : string) (ps : ProjectSettings) : ProjectSettings :=
  {| projectMetadata := {| name := n |};
     graphVerilogMetadata := graphVerilogMetadata ps;
     quartusMetadata := quartusMetadata ps;
     databaseMetadata := databaseMetadata ps |}.

(** *** NLOHMANN_DEFINE_TYPE_INTRUSIVE: [to_json] and [from_json] *)

Definition to_json_ProjectMetadata (t : ProjectMetadata) : json :=
  JObj {[ "name" := JStr (name t) ]}.

Definition to_json_GraphVerilogMetadata (t : GraphVerilogMetadata) : json :=
  JObj (<[ "graphSerialized" := JBool (graphSerialized t) ]>
        {[ "verilogGenerated" := JBool (verilogGenerated t) ]}).

Definition to_json_QuartusMetadata (t : QuartusMetadata) : json :=
  JObj (<[ "quartusCompiled" := JBool (quartusCompiled t) ]>
        {[ "deviceName" := JStr (deviceName t) ]}).

Definition to_json_DatabaseMetadata (t : DatabaseMetadata) : json :=
  JObj (<[ "dbIp" := JStr (dbIp t) ]>
        (<[ "dbUsername" := JStr (dbUsername t) ]>
         (<[ "dbPassword" := JStr (dbPassword t) ]>
          (<[ "dbName" := JStr (dbName t) ]>
           (<[ "dbPort" := JNum (dbPort t) ]>
            {[ "writtenToDB" := JBool (writtenToDB t) ]}))))).

Definition to_json (t : ProjectSettings) : json :=
  JObj (<[ "projectMetadata" :=
             to_json_ProjectMetadata (projectMetadata t) ]>
        (<[ "graphVerilogMetadata" :=
              to_json_GraphVerilogMetadata (graphVerilogMetadata t) ]>
         (<[ "quartusMetadata" :=
               to_json_QuartusMetadata (quartusMetadata t) ]>
          {[ "databaseMetadata" :=
               to_json_DatabaseMetadata (databaseMetadata t) ]}))).

Definition from_json_ProjectMetadata (j : json) : option ProjectMetadata :=
  n ← Json.at_key "name" j ≫= Json.get_string;
  Some {| name := n |}.

Definition from_json_GraphVerilogMetadata (j : json)
  : option GraphVerilogMetadata :=
  g ← Json.at_key "graphSerialized" j ≫= Json.get_bool;
  v ← Json.at_key "verilogGenerated" j ≫= Json.get_bool;
  Some {| graphSerialized := g; verilogGenerated := v |}.

Definition from_json_QuartusMetadata (j : json) : option QuartusMetadata :=
  q ← Json.at_key "quartusCompiled" j ≫= Json.get_bool;
  d ← Json.at_key "deviceName" j ≫= Json.get_string;
  Some {| quartusCompiled := q; deviceName := d |}.

Definition from_json_DatabaseMetadata (j : json) : option DatabaseMetadata :=
  ip ← Json.at_key "dbIp" j ≫= Json.get_string;
  user ← Json.at_key "dbUsername" j ≫= Json.get_string;
  pass ← Json.at_key "dbPassword" j ≫= Json.get_string;
  db ← Json.at_key "dbName" j ≫= Json.get_string;
  port ← Json.at_key "dbPort" j ≫= Json.get_int;
  w ← Json.at_key "writtenToDB" j ≫= Json.get_bool;
  Some {| dbIp := ip; dbUsername := user; dbPassword := pass;
          dbName := db; dbPort := port; writtenToDB := w |}.

(** [json::parse(text).get<ProjectSettings>()]; [None] is any of the
    exceptions of the JSON library. *)
Definition from_json (j : json) : option ProjectSettings :=
  pm ← Json.at_key "projectMetadata" j ≫= from_json_ProjectMetadata;
  gv ← Json.at_key "graphVerilogMetadata" j
         ≫= from_json_GraphVerilogMetadata;
  qm ← Json.at_key "quartusMetadata" j ≫= from_json_QuartusMetadata;
  dm ← Json.at_key "databaseMetadata" j ≫= from_json_DatabaseMetadata;
  Some {| projectMetadata := pm; graphVerilogMetadata := gv;
          quartusMetadata := qm; databaseMetadata := dm |}.

(** *** Command line *)

(** The variables of [main] the loop fills; [opt_name] is the variable
    [name], renamed apart from the field of [ProjectMetadata]. *)
Record options := {
  location : string;
  opt_name : string;
  action : string;
  new_name : string }.

Definition initial_options : options :=
  {| location := ""; opt_name := ""; action := "o"; new_name := "" |}.

Definition set_location (v : string) (o : options) : options :=
  {| location := v; opt_name := opt_name o; action := action o;
     new_name := new_name o |}.
Definition set_opt_name (v : string) (o : options) : options :=
  {| location := location o; opt_name := v; action := action o;
     new_name := new_name o |}.
Definition set_action (v : string) (o : options) : options :=
  {| location := location o; opt_name := opt_name o; action := v;
     new_name := new_name o |}.
Definition set_new_name (v : string) (o : options) : options :=
  {| location := location o; opt_name := opt_name o; action := action o;
     new_name := v |}.

(** The [for] loop over [argv[1..]]; [args] is what is left to read. *)
Fixpoint parse_args {W} (args : list string) (o : options)
  : prog W options :=
  match args with
  | [] => mret o
  | option :: rest =>
      if String.eqb option "-l" || String.eqb option "--location" then
        match rest with
        | v :: rest' => parse_args rest' (set_location v o)
        | [] => exit 1
        end
      else if String.eqb option "-n" || String.eqb option "--name" then
        match rest with
        | v :: rest' => parse_args rest' (set_opt_name v o)
        | [] => exit 1
        end
      else if String.eqb option "-o" || String.eqb option "--open" then
        parse_args rest (set_action "o" o)
      else if String.eqb option "-c" || String.eqb option "--create" then
        parse_args rest (set_action "c" o)
      else if String.eqb option "-e" || String.eqb option "--erase" then
        parse_args rest (set_action "e" o)
      else if String.eqb option "-r" || String.eqb option "--rename" then
        match rest with
        | v :: rest' => parse_args rest' (set_new_name v (set_action "r" o))
        | [] => exit 1
        end
      else exit 1
  end.

(** *** Paths *)

Definition metadata_location (o : options) : string :=
  location o +:+ "/" +:+ opt_name o +:+ "_metadata.json".
Definition new_metadata_location (o : options) : string :=
  location o +:+ "/" +:+ new_name o +:+ "_metadata.json".
Definition graph_location (o : options) : string :=
  location o +:+ "/" +:+ opt_name o +:+ "_graph_object_serialized.json".
Definition new_graph_location (o : options) : string :=
  location o +:+ "/" +:+ new_name o +:+ "_graph_object_serialized.json".
Definition verilog_location (o : options) : string :=
  location o +:+ "/" +:+ opt_name o +:+ "_NoC_description".
Definition new_verilog_location (o : options) : string :=
  location o +:+ "/" +:+ new_name o +:+ "_NoC_description".

(** *** Actions *)

(** [if (exists(p)) body] *)
Definition when_exists (p : string) (body : prog FS unit) : prog FS unit :=
  fs ← get_world;
  if Fs.exists_ p fs then body else mret tt.

(** [readFile]: throws when the stream does not open; a directory
    opens and reads as empty text, which is not JSON. *)
Definition readFile (path : string) : prog FS content :=
  fs ← get_world;
  match fs !! path with
  | Some (File c) => mret c
  | Some (Dir _) => mret Garbage
  | None => throw
  end.

(** [json::parse(text).get<ProjectSettings>()] *)
Definition parse_settings (c : content) : prog FS ProjectSettings :=
  match c with
  | Garbage => throw
  | Doc j => match from_json j with
             | Some ps => mret ps
             | None => throw
             end
  end.

(** The body of [if (action == "r")]. *)
Definition rename_project (o : options) (ps : ProjectSettings)
  : prog FS unit :=
  let projectSettings := set_name (new_name o) ps in
  let json := to_json projectSettings in
  try_catch
    (modify (Fs.write (new_metadata_location o) (Doc json));;
     attempt (Fs.remove (metadata_location o));;
     when_exists (graph_location o)
       (attempt (Fs.rename (graph_location o) (new_graph_location o)));;
     when_exists (metadata_location o)
       (attempt (Fs.rename (metadata_location o) (new_metadata_location o)));;
     when_exists (verilog_location o)
       (attempt (Fs.rename (verilog_location o) (new_verilog_location o))))
    (exit 1).

(** The branch [action == "o" || action == "r"]. *)
Definition open_or_rename (o : options) : prog FS unit :=
  fs ← get_world;
  if negb (Fs.exists_ (location o) fs) then exit 1
  else if negb (Fs.exists_ (metadata_location o) fs) then exit 1
  else
    json ← try_catch (readFile (metadata_location o)) (exit 1);
    projectSettings ←
      try_catch
        (ps ← parse_settings json;
         if negb (String.eqb (name (projectMetadata ps)) (opt_name o))
         then exit 1
         else mret ps)
        (exit 1);
    if String.eqb (action o) "r" then rename_project o projectSettings
    else mret tt.

(** The branch [action == "c"]. *)
Definition create (o : options) : prog FS unit :=
  fs ← get_world;
  (if negb (Fs.exists_ (location o) fs)
   then try_catch (attempt (Fs.create_directories (location o))) (exit 1)
   else mret tt);;
  fs ← get_world;
  if Fs.exists_ (metadata_location o) fs then exit 1
  else
    let project_settings := set_name (opt_name o) default_settings in
    let serialized := to_json project_settings in
    try_catch
      (modify (Fs.write (metadata_location o) (Doc serialized)))
      (exit 1).

(** The branch [action == "e"]. *)
Definition erase (o : options) : prog FS unit :=
  fs ← get_world;
  if negb (Fs.exists_ (location o) fs) then exit 0
  else if negb (Fs.exists_ (metadata_location o) fs) then exit 0
  else
    try_catch
      (when_exists (graph_location o)
         (attempt (Fs.remove (graph_location o)));;
       when_exists (metadata_location o)
         (attempt (Fs.remove (metadata_location o)));;
       when_exists (verilog_location o)
         (modify (Fs.remove_all (verilog_location o))))
      (exit 1).

(** [main]; [args] is [argv[1..argc-1]]. *)
Definition main_body (args : list string) : prog FS unit :=
  o ← parse_args args initial_options;
  if String.eqb (action o) "o" || String.eqb (action o) "r"
  then open_or_rename o
  else if String.eqb (action o) "c" then create o
  else if String.eqb (action o) "e" then erase o
  else mret tt.

Definition main (args : list string) (fs : FS) : outcome * FS :=
  run_main (main_body args) fs.

End Project_manager.

(** ** Broker (second program of [src/main.cpp]) *)

Module Broker.

(** The four executables [Broker] launches. *)
Inductive tool : Type :=
  | Project_manager
  | Graph_verilog_generator
  | Quartus_compiler
  | Database_writer.

#[global] Instance tool_eq_dec : EqDecision tool.
Proof. solve_decision. Defined.

(** What a run of [Broker] acts on: the filesystem, and the processes
    it has launched so far, oldest first, each with its command line. *)
Record world := {
  fs : FS;
  launched : list (tool * string) }.

Definition set_fs (f : FS → FS) (w : world) : world :=
  {| fs := f (fs w); launched := launched w |}.

(** [struct ProjectSettings] with its three nested structs flattened. *)
Record ProjectSettings := {
  graphSerialized : bool;
  verilogGenerated : bool;
  quartusCompiled : bool;
  writtenToDB : bool }.

(** [j[group][flag]] converted to [bool]. *)
Definition read_flag (group flag : string) (j : json) : option bool :=
  g ← Json.index group j;
  f ← Json.index flag g;
  Json.get_bool f.

(** [j[group][flag] = b] *)
Definition write_flag (group flag : string) (b : bool) (j : json)
  : option json :=
  Json.update group (Json.update flag (λ _, Some (JBool b))) j.

(** Lines 521-524: the four reads [ps.x = j[group][flag]]. *)
Definition read_flags (j : json) : option ProjectSettings :=
  g ← read_flag "graphVerilogMetadata" "graphSerialized" j;
  v ← read_flag "graphVerilogMetadata" "verilogGenerated" j;
  q ← read_flag "quartusMetadata" "quartusCompiled" j;
  d ← read_flag "databaseMetadata" "writtenToDB" j;
  Some {| graphSerialized := g; verilogGenerated := v;
          quartusCompiled := q; writtenToDB := d |}.

(** Lines 526-529: the four conditional resets. *)
Definition clear_flags (stage : Z) (ps : ProjectSettings) : ProjectSettings :=
  let d := if (stage <=? 3)%Z then false else writtenToDB ps in
  let q := if (stage <=? 2)%Z then false else quartusCompiled ps in
  let v := if (stage <=? 1)%Z then false else verilogGenerated ps in
  let g := if (stage =? 0)%Z then false else graphSerialized ps in
  {| graphSerialized := g; verilogGenerated := v;
     quartusCompiled := q; writtenToDB := d |}.

(** Lines 531-534: the four writes [j[group][flag] = ps.x]. *)
Definition store_flags (ps : ProjectSettings) (j : json) : option json :=
  j ← write_flag "graphVerilogMetadata" "graphSerialized"
        (graphSerialized ps) j;
  j ← write_flag "graphVerilogMetadata" "verilogGenerated"
        (verilogGenerated ps) j;
  j ← write_flag "quartusMetadata" "quartusCompiled" (quartusCompiled ps) j;
  write_flag "databaseMetadata" "writtenToDB" (writtenToDB ps) j.

(** [uncheckMetadata]: a missing file is reported and left alone; a
    file that does not parse, or lacks a flag, throws. *)
Definition uncheckMetadata (jsonPath : string) (stage : Z)
  : prog world unit :=
  w ← get_world;
  if negb (Fs.exists_ jsonPath (fs w)) then mret tt
  else
    match Fs.parse jsonPath (fs w) with
    | None => throw
    | Some j =>
        match read_flags j with
        | None => throw
        | Some ps =>
            match store_flags (clear_flags stage ps) j with
            | None => throw
            | Some j' => modify (set_fs (Fs.write jsonPath (Doc j')))
            end
        end
    end.

(** The flags a metadata file holds, as [uncheckMetadata] reads them. *)
Definition stored_flags (jsonPath : string) (fs : FS)
  : option ProjectSettings :=
  Fs.parse jsonPath fs ≫= read_flags.

Inductive platform : Type :=
  | PLATFORM_WINDOWS
  | PLATFORM_LINUX.

Definition manager_exec (os : platform) : string :=
  match os with
  | PLATFORM_WINDOWS =>
      "../../../../../Project_manager/Project_manager/bin/Debug/net8.0/Project_manager.exe"
  | PLATFORM_LINUX => "../../../../../Project_manager/Project_manager"
  end.
Definition veriloger_exec (os : platform) : string :=
  match os with
  | PLATFORM_WINDOWS =>
      "../../../../../Graph_verilog_generator/Graph_verilog_generator/bin/Debug/net8.0/Graph_verilog_generator.exe"
  | PLATFORM_LINUX =>
      "../../../../../Graph_verilog_generator/Graph_verilog_generator"
  end.
Definition quartus_exec (os : platform) : string :=
  match os with
  | PLATFORM_WINDOWS =>
      "../../../../../Quartus_compiler/Quartus_compiler/bin/Debug/net8.0/Quartus_compiler.exe"
  | PLATFORM_LINUX => "../../../../../Quartus_compiler/Quartus_compiler"
  end.
Definition db_exec (os : platform) : string :=
  match os with
  | PLATFORM_WINDOWS =>
      "../../../../../Database_writer/Database_writer/bin/Debug/net8.0/Database_writer.exe"
  | PLATFORM_LINUX => "../../../../../Database_writer/Database_writer"
  end.

(** *** Command line *)

Record arguments := {
  launch_manager : bool;
  launch_graph : bool;
  launch_quartus : bool;
  launch_db : bool;
  project_name : string;
  project_location : string;
  project_new_name : string;
  project_action : string;
  graph_args : string;
  quartus_args : string;
  db_args : string;
  key_arg : string }.

Definition initial_arguments : arguments :=
  {| launch_manager := false; launch_graph := false;
     launch_quartus := false; launch_db := false;
     project_name := ""; project_location := ""; project_new_name := "";
     project_action := "o";
     graph_args := ""; quartus_args := ""; db_args := ""; key_arg := "" |}.

Definition set_launch_manager (a : arguments) : arguments :=
  {| launch_manager := true; launch_graph := launch_graph a;
     launch_quartus := launch_quartus a; launch_db := launch_db a;
     project_name := project_name a; project_location := project_location a;
     project_new_name := project_new_name a;
     project_action := project_action a;
     graph_args := graph_args a; quartus_args := quartus_args a;
     db_args := db_args a; key_arg := key_arg a |}.
Definition set_launch_graph (key : string) (a : arguments) : arguments :=
  {| launch_manager := launch_manager a; launch_graph := true;
     launch_quartus := launch_quartus a; launch_db := launch_db a;
     project_name := project_name a; project_location := project_location a;
     project_new_name := project_new_name a;
     project_action := project_action a;
     graph_args := graph_args a; quartus_args := quartus_args a;
     db_args := db_args a; key_arg := key |}.
Definition set_launch_quartus (key : string) (a : arguments) : arguments :=
  {| launch_manager := launch_manager a; launch_graph := launch_graph a;
     launch_quartus := true; launch_db := launch_db a;
     project_name := project_name a; project_location := project_location a;
     project_new_name := project_new_name a;
     project_action := project_action a;
     graph_args := graph_args a; quartus_args := quartus_args a;
     db_args := db_args a; key_arg := key |}.
Definition set_launch_db (key : string) (a : arguments) : arguments :=
  {| launch_manager := launch_manager a; launch_graph := launch_graph a;
     launch_quartus := launch_quartus a; launch_db := true;
     project_name := project_name a; project_location := project_location a;
     project_new_name := project_new_name a;
     project_action := project_action a;
     graph_args := graph_args a; quartus_args := quartus_args a;
     db_args := db_args a; key_arg := key |}.
Definition set_project_name (v : string) (a : arguments) : arguments :=
  {| launch_manager := launch_manager a; launch_graph := launch_graph a;
     launch_quartus := launch_quartus a; launch_db := launch_db a;
     project_name := v; project_location := project_location a;
     project_new_name := project_new_name a;
     project_action := project_action a;
     graph_args := graph_args a; quartus_args := quartus_args a;
     db_args := db_args a; key_arg := key_arg a |}.
Definition set_project_location (v : string) (a : arguments) : arguments :=
  {| launch_manager := launch_manager a; launch_graph := launch_graph a;
     launch_quartus := launch_quartus a; launch_db := launch_db a;
     project_name := project_name a; project_location := v;
     project_new_name := project_new_name a;
     project_action := project_action a;
     graph_args := graph_args a; quartus_args := quartus_args a;
     db_args := db_args a; key_arg := key_arg a |}.
Definition set_project_new_name (v : string) (a : arguments) : arguments :=
  {| launch_manager := launch_manager a; launch_graph := launch_graph a;
     launch_quartus := launch_quartus a; launch_db := launch_db a;
     project_name := project_name a; project_location := project_location a;
     project_new_name := v;
     project_action := project_action a;
     graph_args := graph_args a; quartus_args := quartus_args a;
     db_args := db_args a; key_arg := key_arg a |}.
Definition set_project_action (v : string) (a : arguments) : arguments :=
  {| launch_manager := launch_manager a; launch_graph := launch_graph a;
     launch_quartus := launch_quartus a; launch_db := launch_db a;
     project_name := project_name a; project_location := project_location a;
     project_new_name := project_new_name a;
     project_action := v;
     graph_args := graph_args a; quartus_args := quartus_args a;
     db_args := db_args a; key_arg := key_arg a |}.

(** Lines 655-657: a free argument goes to the stage named last. *)
Definition append_extra (arg : string) (a : arguments) : arguments :=
  {| launch_manager := launch_manager a; launch_graph := launch_graph a;
     launch_quartus := launch_quartus a; launch_db := launch_db a;
     project_name := project_name a; project_location := project_location a;
     project_new_name := project_new_name a;
     project_action := project_action a;
     graph_args :=
       if String.eqb (key_arg a) "--graph"
       then graph_args a +:+ " " +:+ arg else graph_args a;
     quartus_args :=
       if String.eqb (key_arg a) "--graph" then quartus_args a
       else if String.eqb (key_arg a) "--quartus"
       then quartus_args a +:+ " " +:+ arg else quartus_args a;
     db_args :=
       if String.eqb (key_arg a) "--graph" then db_args a
       else if String.eqb (key_arg a) "--quartus" then db_args a
       else if String.eqb (key_arg a) "--database"
       then db_args a +:+ " " +:+ arg else db_args a;
     key_arg := key_arg a |}.

(** The argument loop.  [args] is what lies after index [i];
    [in_project] tells whether control is inside the [while] loop that
    follows [--project].  Reading [args[++i]] past the end of the
    vector is undefined behaviour. *)
Fixpoint parse_args {W} (in_project : bool) (args : list string)
  (a : arguments) {struct args} : prog W arguments :=
  match args with
  | [] => mret a
  | arg :: rest =>
      let for_body : prog W arguments :=
        if String.eqb arg "--project" then
          parse_args true rest (set_launch_manager a)
        else if String.eqb arg "--graph" then
          parse_args false rest (set_launch_graph arg a)
        else if String.eqb arg "--quartus" then
          parse_args false rest (set_launch_quartus arg a)
        else if String.eqb arg "--database" then
          parse_args false rest (set_launch_db arg a)
        else if String.eqb arg "-h" || String.eqb arg "--help" then
          exit 0
        else if String.eqb (key_arg a) "" then exit 1
        else parse_args false rest (append_extra arg a)
      in
      if in_project then
        if String.eqb arg "-n" || String.eqb arg "--name" then
          match rest with
          | v :: rest' => parse_args true rest' (set_project_name v a)
          | [] => leave Undefined
          end
        else if String.eqb arg "-l" || String.eqb arg "--location" then
          match rest with
          | v :: rest' => parse_args true rest' (set_project_location v a)
          | [] => leave Undefined
          end
        else if String.eqb arg "-o" || String.eqb arg "--open" then
          parse_args true rest (set_project_action "o" a)
        else if String.eqb arg "-c" || String.eqb arg "--create" then
          parse_args true rest (set_project_action "c" a)
        else if String.eqb arg "-e" || String.eqb arg "--erase" then
          parse_args true rest (set_project_action "e" a)
        else if String.eqb arg "-r" || String.eqb arg "--rename" then
          match rest with
          | v :: rest' =>
              parse_args true rest'
                (set_project_new_name v (set_project_action "r" a))
          | [] => leave Undefined
          end
        else for_body
      else for_body
  end.

Section Run.

(** The build platform and the operating system's answer to a
    command: exit status and filesystem after the process ended. *)
Context (os : platform) (system : string → FS → Z * FS).

(** [runProcess]; the tool named is the one whose path starts the
    command. *)
Definition runProcess (t : tool) (command : string) : prog world Z :=
  λ w, let r := system command (fs w) in
       Next r.1 {| fs := r.2; launched := launched w ++ [(t, command)] |}.

Definition metadata_path (a : arguments) : string :=
  project_location a +:+ "/" +:+ project_name a +:+ "_metadata.json".

Definition manager_command (a : arguments) : string :=
  manager_exec os +:+ " -l " +:+ project_location a +:+ " -n "
    +:+ project_name a +:+ " -" +:+ project_action a
    +:+ (if String.eqb (project_action a) "r"
         then " " +:+ project_new_name a else "").

Definition graph_command (a : arguments) : string :=
  veriloger_exec os +:+ " -l " +:+ project_location a +:+ " -n "
    +:+ project_name a +:+ graph_args a.

Definition quartus_command (a : arguments) : string :=
  quartus_exec os +:+ " -l " +:+ project_location a +:+ " -n "
    +:+ project_name a.

Definition db_command (a : arguments) : string :=
  db_exec os +:+ " -l " +:+ project_location a +:+ " -n "
    +:+ project_name a +:+ db_args a.

(** [if (launch_manager) { ... }]; yields the arguments with the
    project name the later stages use. *)
Definition manager_block (a : arguments) : prog world arguments :=
  if launch_manager a then
    res ← runProcess Project_manager (manager_command a);
    if negb (res =? 0)%Z then exit 1
    else if String.eqb (project_action a) "r"
         then mret (set_project_name (project_new_name a) a)
         else mret a
  else mret a.

(** The shape the three stage blocks share: clear flags, launch,
    return 1 on a non-zero status. *)
Definition stage_block (t : tool) (stage : Z) (command : string)
  (a : arguments) : prog world unit :=
  uncheckMetadata (metadata_path a) stage;;
  res ← runProcess t command;
  if negb (res =? 0)%Z then exit 1 else mret tt.

Definition graph_block (a : arguments) : prog world unit :=
  if launch_graph a
  then stage_block Graph_verilog_generator 0 (graph_command a) a
  else mret tt.

Definition quartus_block (a : arguments) : prog world unit :=
  if launch_quartus a
  then stage_block Quartus_compiler 2 (quartus_command a) a
  else mret tt.

Definition db_block (a : arguments) : prog world unit :=
  if launch_db a
  then stage_block Database_writer 3 (db_command a) a
  else mret tt.

(** [main]; [args] is [argv[1..argc-1]]. *)
Definition main_body (args : list string) : prog world unit :=
  match args with
  | [] => exit 0
  | _ =>
      a ← parse_args false args initial_arguments;
      a ← manager_block a;
      graph_block a;;
      quartus_block a;;
      db_block a;;
      exit 0
  end.

Definition main (args : list string) (w : world) : outcome * world :=
  run_main (main_body args) w.

End Run.

End Broker.

(** * Vocabulary of the properties *)

(** The flags in pipeline order: position 0 is [graphSerialized], 1 is
    [verilogGenerated], 2 is [quartusCompiled], 3 is [writtenToDB]. *)
Definition flag_at (k : nat) (ps : Broker.ProjectSettings) : bool :=
  match k with
  | 0%nat => Broker.graphSerialized ps
  | 1%nat => Broker.verilogGenerated ps
  | 2%nat => Broker.quartusCompiled ps
  | _ => Broker.writtenToDB ps
  end.

(** A true flag has only true flags before it. *)
Definition prefix_closed (ps : Broker.ProjectSettings) : Prop :=
  ∀ k i : nat, (i < k)%nat → (k < 4)%nat →
    flag_at k ps = true → flag_at i ps = true.

(** The four flags of a record of [Project_manager]. *)
Definition flags_of (ps : Project_manager.ProjectSettings)
  : Broker.ProjectSettings :=
  {| Broker.graphSerialized :=
       Project_manager.graphSerialized (Project_manager.graphVerilogMetadata ps);
     Broker.verilogGenerated :=
       Project_manager.verilogGenerated (Project_manager.graphVerilogMetadata ps);
     Broker.quartusCompiled :=
       Project_manager.quartusCompiled (Project_manager.quartusMetadata ps);
     Broker.writtenToDB :=
       Project_manager.writtenToDB (Project_manager.databaseMetadata ps) |}.

(** The stage number each block of [Broker::main] hands to
    [uncheckMetadata] (lines 693, 705 and 717). *)
Definition stage_number (t : Broker.tool) : option Z :=
  match t with
  | Broker.Project_manager => None
  | Broker.Graph_verilog_generator => Some 0%Z
  | Broker.Quartus_compiler => Some 2%Z
  | Broker.Database_writer => Some 3%Z
  end.

(** What a stage tool that sets its own success flags, and nothing
    else, makes of the flags it finds. *)
Definition marked (t : Broker.tool) (ps : Broker.ProjectSettings)
  : Broker.ProjectSettings :=
  match t with
  | Broker.Project_manager => ps
  | Broker.Graph_verilog_generator =>
      {| Broker.graphSerialized := true; Broker.verilogGenerated := true;
         Broker.quartusCompiled := Broker.quartusCompiled ps;
         Broker.writtenToDB := Broker.writtenToDB ps |}
  | Broker.Quartus_compiler =>
      {| Broker.graphSerialized := Broker.graphSerialized ps;
         Broker.verilogGenerated := Broker.verilogGenerated ps;
         Broker.quartusCompiled := true;
         Broker.writtenToDB := Broker.writtenToDB ps |}
  | Broker.Database_writer =>
      {| Broker.graphSerialized := Broker.graphSerialized ps;
         Broker.verilogGenerated := Broker.verilogGenerated ps;
         Broker.quartusCompiled := Broker.quartusCompiled ps;
         Broker.writtenToDB := true |}
  end.

(** The tools in the order of the pipeline. *)
Definition pipeline : list Broker.tool :=
  [Broker.Project_manager; Broker.Graph_verilog_generator;
   Broker.Quartus_compiler; Broker.Database_writer].

(** The tools a command line asks for, in the order of the pipeline. *)
Definition requested (a : Broker.arguments) : list Broker.tool :=
  ((if Broker.launch_manager a then [Broker.Project_manager] else [])
   ++ (if Broker.launch_graph a then [Broker.Graph_verilog_generator] else [])
   ++ (if Broker.launch_quartus a then [Broker.Quartus_compiler] else [])
   ++ (if Broker.launch_db a then [Broker.Database_writer] else []))%list.

(** The flags that switch the action of the project manager. *)
Definition is_action_flag (s : string) : bool :=
  String.eqb s "-o" || String.eqb s "--open"
  || String.eqb s "-c" || String.eqb s "--create"
  || String.eqb s "-e" || String.eqb s "--erase"
  || String.eqb s "-r" || String.eqb s "--rename".

(** ** The command line of [Project_manager] *)

(** The options that read the next argument as their value. *)
Definition takes_value (s : string) : bool :=
  String.eqb s "-l" || String.eqb s "--location"
  || String.eqb s "-n" || String.eqb s "--name"
  || String.eqb s "-r" || String.eqb s "--rename".

(** The action letter of the flags that stand alone. *)
Definition action_of_flag (s : string) : option string :=
  if String.eqb s "-o" || String.eqb s "--open" then Some "o"
  else if String.eqb s "-c" || String.eqb s "--create" then Some "c"
  else if String.eqb s "-e" || String.eqb s "--erase" then Some "e"
  else None.

(** The project can be opened: its directory exists and its metadata
    file holds a record that bears the name given. *)
Definition opens (o : Project_manager.options) (fs : FS) : bool :=
  Fs.exists_ (Project_manager.location o) fs
  && match fs !! Project_manager.metadata_location o with
     | Some (File (Doc j)) =>
         match Project_manager.from_json j with
         | Some ps =>
             String.eqb
               (Project_manager.name (Project_manager.projectMetadata ps))
               (Project_manager.opt_name o)
         | None => false
         end
     | _ => false
     end.

(** A plain name: one path component written in ASCII.  It holds no
    '/', so that it names an entry of the directory it is put in, and no
    character above 127, so that it is valid UTF-8 as it stands. *)
Fixpoint plain (s : string) : bool :=
  match s with
  | EmptyString => true
  | String c s' =>
      negb (Ascii.eqb c "/"%char) && (N_of_ascii c <? 128)%N && plain s'
  end.

(** The project directory is there, or can be made: it is a directory,
    or it is missing and [create_directories] succeeds on it. *)
Definition can_hold_project (location : string) (fs : FS) : bool :=
  match fs !! location with
  | Some (Dir _) => true
  | Some (File _) => false
  | None => bool_decide (is_Some (Fs.create_directories location fs))
  end.


(** The paths [Project_manager] may act on for one command line: the
    project directory with the directories above it, and the six paths
    built from the two names with what lies below them. *)
Definition project_path (o : Project_manager.options) (p : string) : bool :=
  bool_decide (p ∈ Fs.directories (Project_manager.location o))
  || Fs.within (Project_manager.metadata_location o) p
  || Fs.within (Project_manager.graph_location o) p
  || Fs.within (Project_manager.verilog_location o) p
  || Fs.within (Project_manager.new_metadata_location o) p
  || Fs.within (Project_manager.new_graph_location o) p
  || Fs.within (Project_manager.new_verilog_location o) p.

(** Two filesystems agree at every path outside [S]. *)
Definition same_outside (S : string → bool) (fs fs' : FS) : Prop :=
  ∀ p, S p = false → fs' !! p = fs !! p.

(** A piece of code changes no path outside [S], however it ends. *)
Definition framed (S : string → bool) {A} (c : prog FS A) : Prop :=
  ∀ fs, match c fs with
        | Next _ fs' => same_outside S fs fs'
        | Done _ fs' => same_outside S fs fs'
        | Raised fs' => same_outside S fs fs'
        end.

(** Every regular file of [fs'] holds [c0] or what some regular file of
    [fs] holds. *)
Definition files_from (fs : FS) (c0 : content) (fs' : FS) : Prop :=
  ∀ p c, fs' !! p = Some (File c) →
    c = c0 ∨ ∃ p', fs !! p' = Some (File c).

(** A piece of code keeps [I], however it ends. *)
Definition ensures (I : FS → Prop) {A} (c : prog FS A) : Prop :=
  ∀ fs, I fs →
    match c fs with
    | Next _ fs' => I fs'
    | Done _ fs' => I fs'
    | Raised fs' => I fs'
    end.


(** A record of [Project_manager] with its four flags replaced. *)
Definition with_flags (fl : Broker.ProjectSettings)
  (ps : Project_manager.ProjectSettings) : Project_manager.ProjectSettings :=
  {| Project_manager.projectMetadata := Project_manager.projectMetadata ps;
     Project_manager.graphVerilogMetadata :=
       {| Project_manager.graphSerialized := Broker.graphSerialized fl;
          Project_manager.verilogGenerated := Broker.verilogGenerated fl |};
     Project_manager.quartusMetadata :=
       {| Project_manager.quartusCompiled := Broker.quartusCompiled fl;
          Project_manager.deviceName :=
            Project_manager.deviceName (Project_manager.quartusMetadata ps) |};
     Project_manager.databaseMetadata :=
       {| Project_manager.dbIp :=
            Project_manager.dbIp (Project_manager.databaseMetadata ps);
          Project_manager.dbUsername :=
            Project_manager.dbUsername (Project_manager.databaseMetadata ps);
          Project_manager.dbPassword :=
            Project_manager.dbPassword (Project_manager.databaseMetadata ps);
          Project_manager.dbName :=
            Project_manager.dbName (Project_manager.databaseMetadata ps);
          Project_manager.dbPort :=
            Project_manager.dbPort (Project_manager.databaseMetadata ps);
          Project_manager.writtenToDB := Broker.writtenToDB fl |} |}.

(** ** The command line of [Broker] *)

(** The arguments the [for] loop of [Broker] acts on itself; any other
    argument is a free one, handed to the stage named last. *)
Definition is_keyword (s : string) : bool :=
  String.eqb s "--project" || String.eqb s "--graph"
  || String.eqb s "--quartus" || String.eqb s "--database"
  || String.eqb s "-h" || String.eqb s "--help".

(** * Scenarios used to exercise the properties *)

Module Scenario.

(** A process that exits with status 0 and touches nothing. *)
Definition idle : string → FS → Z * FS := λ _ fs, (0%Z, fs).

(** A metadata document for project [n] with the given flags. *)
Definition document (n : string) (g v q d : bool) : json :=
  Project_manager.to_json
    {| Project_manager.projectMetadata := {| Project_manager.name := n |};
       Project_manager.graphVerilogMetadata :=
         {| Project_manager.graphSerialized := g;
            Project_manager.verilogGenerated := v |};
       Project_manager.quartusMetadata :=
         {| Project_manager.quartusCompiled := q;
            Project_manager.deviceName := "5CGXFC9E7F35C8" |};
       Project_manager.databaseMetadata :=
         {| Project_manager.dbIp := ""; Project_manager.dbUsername := "";
            Project_manager.dbPassword := ""; Project_manager.dbName := "";
            Project_manager.dbPort := (-1)%Z;
            Project_manager.writtenToDB := d |} |}.

(** The record of project [A] with the given flags. *)
Definition settings_A (g v q d : bool) : Project_manager.ProjectSettings :=
  {| Project_manager.projectMetadata := {| Project_manager.name := "A" |};
     Project_manager.graphVerilogMetadata :=
       {| Project_manager.graphSerialized := g;
          Project_manager.verilogGenerated := v |};
     Project_manager.quartusMetadata :=
       {| Project_manager.quartusCompiled := q;
          Project_manager.deviceName := "5CGXFC9E7F35C8" |};
     Project_manager.databaseMetadata :=
       {| Project_manager.dbIp := ""; Project_manager.dbUsername := "";
          Project_manager.dbPassword := ""; Project_manager.dbName := "";
          Project_manager.dbPort := (-1)%Z;
          Project_manager.writtenToDB := d |} |}.

(** Directory [loc] holding project [A] with the given flags. *)
Definition project_A (g v q d : bool) : FS :=
  <[ "loc/A_metadata.json" := File (Doc (document "A" g v q d)) ]>
    {[ "loc" := Dir ["A_metadata.json"] ]}.

(** Project [A] with its graph file and its Verilog directory. *)
Definition full_project_A : FS :=
  <[ "loc/A_graph_object_serialized.json" := File Garbage ]>
    (<[ "loc/A_NoC_description" := Dir ["top.v"] ]>
       (project_A true true false false)).


(** Project [A] next to what is left of a project [B]: a Verilog
    directory that is not empty. *)
Definition crowded_project_A : FS :=
  <[ "loc/B_NoC_description" := Dir ["old.v"] ]> full_project_A.

(** A metadata file for [X] whose record is named [A]. *)
Definition misnamed_project : FS :=
  <[ "loc/X_metadata.json" :=
       File (Doc (document "A" false false false false)) ]>
    {[ "loc" := Dir ["X_metadata.json"] ]}.

(** A metadata file that is not JSON, at the path [Broker] derives when
    no project has been named. *)
Definition corrupt_metadata : FS := {[ "/_metadata.json" := File Garbage ]}.

Definition start (fs : FS) : Broker.world :=
  {| Broker.fs := fs; Broker.launched := [] |}.

(** What [Broker] holds after [--project -n A -l loc]. *)
Definition args_A : Broker.arguments :=
  Broker.set_project_location "loc"
    (Broker.set_project_name "A"
       (Broker.set_launch_manager Broker.initial_arguments)).

(** What [Broker] holds after
    [--project -n A -l loc --graph --quartus]. *)
Definition args_A_stages : Broker.arguments :=
  Broker.set_launch_quartus "--quartus"
    (Broker.set_launch_graph "--graph" args_A).

Definition graph_A : string :=
  "../../../../../Graph_verilog_generator/Graph_verilog_generator -l loc -n A".
Definition quartus_A : string :=
  "../../../../../Quartus_compiler/Quartus_compiler -l loc -n A".


(** A compiler that succeeds and sets its flag. *)
Definition marking_quartus : string → FS → Z * FS :=
  λ command fs,
    if String.eqb command quartus_A then
      (0%Z, <[ "loc/A_metadata.json" :=
                 File (Doc (document "A" true true true false)) ]> fs)
    else (0%Z, fs).

(** A compiler that always exits with status 0 but compiles, and sets
    its flag, only when it finds no bitstream left by an earlier run. *)
Definition forgetful_quartus : string → FS → Z * FS :=
  λ command fs,
    if String.eqb command quartus_A && negb (Fs.exists_ "loc/A.sof" fs) then
      (0%Z, <[ "loc/A.sof" := File Garbage ]>
              (<[ "loc/A_metadata.json" :=
                    File (Doc (document "A" true true true false)) ]> fs))
    else (0%Z, fs).

End Scenario.

(** * Properties *)

(** ** Strings and paths *)

Section Strings.

Lemma append_cons c s t : String c s +:+ t = String c (s +:+ t).
Proof. reflexivity. Qed.

Lemma list_ascii_of_append s t :
  list_ascii_of_string (s +:+ t)
  = (list_ascii_of_string s ++ list_ascii_of_string t)%list.
Proof.
  induction s as [|c s IH]; [reflexivity|].
  rewrite append_cons. simpl. by rewrite IH.
Qed.

Lemma list_ascii_inj s t :
  list_ascii_of_string s = list_ascii_of_string t → s = t.
Proof.
  intros H. rewrite <- (string_of_list_ascii_of_string s),
    <- (string_of_list_ascii_of_string t). by rewrite H.
Qed.

Lemma app_eq_suffix {A} (l1 l2 s t : list A) :
  (l1 ++ s = l2 ++ t)%list → s `suffix_of` t ∨ t `suffix_of` s.
Proof.
  revert l2. induction l1 as [|x l1 IH]; intros [|y l2] H; simpl in *.
  - left. by subst.
  - right. exists (y :: l2). by subst.
  - left. exists (x :: l1). by subst.
  - injection H as _ H. eauto.
Qed.

(** Two names with the same ending are equal when the full names are. *)
Lemma append_inj_l a b t : a +:+ t = b +:+ t → a = b.
Proof.
  intros H. apply list_ascii_inj.
  apply (f_equal list_ascii_of_string) in H.
  rewrite !list_ascii_of_append in H. by apply app_inv_tail in H.
Qed.

(** Names with endings of which none ends the other are different. *)
Lemma append_clash a b s t :
  ¬ list_ascii_of_string s `suffix_of` list_ascii_of_string t →
  ¬ list_ascii_of_string t `suffix_of` list_ascii_of_string s →
  a +:+ s ≠ b +:+ t.
Proof.
  intros Hst Hts H. apply (f_equal list_ascii_of_string) in H.
  rewrite !list_ascii_of_append in H.
  destruct (app_eq_suffix _ _ _ _ H); tauto.
Qed.

Lemma append_neq_self s t : t ≠ "" → s ≠ s +:+ t.
Proof.
  intros Ht H. apply Ht. apply (String.app_inj s).
  rewrite <- H. clear. induction s as [|c s IH]; [reflexivity|].
  rewrite append_cons. by f_equal.
Qed.

Lemma append_nil_r s : s +:+ "" = s.
Proof. induction s as [|c s IH]; [done|]. by rewrite append_cons, IH. Qed.

Lemma append_assoc s t u : (s +:+ t) +:+ u = s +:+ t +:+ u.
Proof. induction s as [|c s IH]; [done|]. by rewrite !append_cons, IH. Qed.

Lemma length_append s t :
  String.length (s +:+ t) = (String.length s + String.length t)%nat.
Proof. induction s as [|c s IH]; [done|]. rewrite append_cons. simpl. lia. Qed.

Lemma prefix_spec a b : String.prefix a b = true ↔ ∃ r, b = a +:+ r.
Proof.
  revert b. induction a as [|c a IH]; intros b.
  - destruct b; simpl; split; eauto.
  - destruct b as [|c' b]; simpl.
    + split; [done|]. by intros [r ?].
    + destruct (ascii_dec c c') as [->|Hne].
      * rewrite IH. split; intros [r Hr]; exists r; [by rewrite Hr|].
        by injection Hr.
      * split; [done|]. intros [r Hr]. injection Hr as -> _. done.
Qed.

Lemma drop_append a r : Fs.drop (String.length a) (a +:+ r) = r.
Proof. induction a as [|c a IH]; [by destruct r|]. done. Qed.

Lemma plain_append s t : plain (s +:+ t) = plain s && plain t.
Proof.
  induction s as [|c s IH]; [done|]. rewrite append_cons. simpl.
  by rewrite IH, !andb_assoc.
Qed.

Lemma plain_cons c s :
  plain (String c s) = true → Ascii.eqb c "/" = false ∧ plain s = true.
Proof.
  simpl. intros [[Hc _]%andb_prop Hs]%andb_prop.
  split; [by apply negb_true_iff|done].
Qed.


Lemma cuts_plain acc x : plain x = true → Fs.cuts acc x = [].
Proof.
  revert acc. induction x as [|c x IH]; intros acc; [done|].
  intros [Hc Hx]%plain_cons. simpl. rewrite Hc. auto.
Qed.

Lemma cuts_append acc a x :
  plain x = true →
  Fs.cuts acc (a +:+ "/" +:+ x) = (Fs.cuts acc a ++ [acc +:+ a])%list.
Proof.
  intros Hx. revert acc. induction a as [|c a IH]; intros acc.
  - simpl. by rewrite (cuts_plain _ _ Hx), append_nil_r.
  - rewrite append_cons. simpl. rewrite IH, append_assoc. simpl.
    by destruct (Ascii.eqb c "/").
Qed.

(** A cut of a path is not longer than the path. *)
Lemma cuts_length acc s d :
  d ∈ Fs.cuts acc s →
  (String.length d ≤ String.length acc + String.length s)%nat.
Proof.
  revert acc. induction s as [|c s IH]; intros acc; simpl.
  - by rewrite elem_of_nil.
  - intros Hd.
    assert (d = acc ∨ d ∈ Fs.cuts (acc +:+ String c "") s) as [->|Hin].
    { destruct (Ascii.eqb c "/"); [|by right].
      apply elem_of_cons in Hd as [->|?]; auto. }
    + lia.
    + apply IH in Hin. rewrite length_append in Hin. simpl in Hin. lia.
Qed.

(** A file with a plain name in [loc] has [loc] for its directory. *)
Lemma parent_in loc x : plain x = true → Fs.parent (loc +:+ "/" +:+ x) = loc.
Proof.
  intros Hx. unfold Fs.parent. rewrite (cuts_append _ _ _ Hx).
  by rewrite last_last.
Qed.

Lemma below_spec d k : Fs.below d k = true ↔ ∃ r, k = d +:+ "/" +:+ r.
Proof.
  unfold Fs.below. rewrite prefix_spec.
  by setoid_rewrite append_assoc.
Qed.

Lemma below_append d r : Fs.below d (d +:+ "/" +:+ r) = true.
Proof. apply below_spec. eauto. Qed.


Lemma within_spec d k : Fs.within d k = true ↔ k = d ∨ Fs.below d k = true.
Proof.
  unfold Fs.within. rewrite orb_true_iff, String.eqb_eq. done.
Qed.

Lemma within_false d k :
  Fs.within d k = false ↔ k ≠ d ∧ Fs.below d k = false.
Proof.
  unfold Fs.within. rewrite orb_false_iff, String.eqb_neq. done.
Qed.

(** Of two plain names in one directory neither lies below the other. *)
Lemma below_sibling loc x y :
  plain y = true → Fs.below (loc +:+ "/" +:+ x) (loc +:+ "/" +:+ y) = false.
Proof.
  intros Hy. apply not_true_is_false. intros [r Hr]%below_spec.
  rewrite append_assoc in Hr. apply String.app_inj in Hr.
  rewrite append_assoc in Hr. apply String.app_inj in Hr.
  rewrite Hr, !plain_append in Hy. simpl in Hy.
  by rewrite andb_false_r in Hy.
Qed.


End Strings.

(** [path_neq] settles that two of the six project paths differ, from a
    hypothesis that the two project names differ where it is needed. *)
Ltac path_neq :=
  let H := fresh in
  intros H;
  repeat (apply String.app_inj in H);
  first
    [ discriminate H
    | apply append_inj_l in H; congruence
    | revert H; apply append_clash;
      apply (bool_decide_unpack _); vm_compute; exact I ].

(** ** The flags inside a metadata document *)

Section Flags.
Import Broker.

Lemma read_flag_inv group flag j b :
  read_flag group flag j = Some b →
  ∃ m mg, j = JObj m ∧ m !! group = Some (JObj mg)
          ∧ mg !! flag = Some (JBool b).
Proof.
  unfold read_flag. destruct j as [| | | | |m]; simpl; try done.
  destruct (m !! group) as [[| | | | |mg]|] eqn:Hg; simpl; try done.
  destruct (mg !! flag) as [[|b'| | | |]|] eqn:Hf; simpl; try done.
  intros [= ->]. eauto.
Qed.

Lemma read_flag_obj group flag m mg :
  m !! group = Some (JObj mg) →
  read_flag group flag (JObj m) = Json.get_bool (default JNull (mg !! flag)).
Proof. intros H. unfold read_flag. simpl. by rewrite H. Qed.

Lemma write_flag_obj group flag b m mg :
  m !! group = Some (JObj mg) →
  write_flag group flag b (JObj m)
  = Some (JObj (<[ group := JObj (<[ flag := JBool b ]> mg) ]> m)).
Proof. intros H. unfold write_flag. simpl. by rewrite H. Qed.

(** Writing the four flags into a document that holds four flags
    succeeds, and the document then holds the flags written. *)
Lemma read_store_flags j ps ps' :
  read_flags j = Some ps →
  ∃ j', store_flags ps' j = Some j' ∧ read_flags j' = Some ps'.
Proof.
  unfold read_flags. intros H.
  destruct (read_flag "graphVerilogMetadata" "graphSerialized" j)
    as [g|] eqn:Hg; [|done].
  destruct (read_flag "graphVerilogMetadata" "verilogGenerated" j)
    as [v|] eqn:Hv; [|done].
  destruct (read_flag "quartusMetadata" "quartusCompiled" j)
    as [q|] eqn:Hq; [|done].
  destruct (read_flag "databaseMetadata" "writtenToDB" j)
    as [d|] eqn:Hd; [|done].
  clear H Hv.
  apply read_flag_inv in Hg as (m & mg & -> & Hmg & _).
  apply read_flag_inv in Hq as (? & mq & [= <-] & Hmq & _).
  apply read_flag_inv in Hd as (? & md & [= <-] & Hmd & _).
  destruct ps' as [g' v' q' d']. unfold store_flags.
  cbn [graphSerialized verilogGenerated quartusCompiled writtenToDB].
  erewrite write_flag_obj by eassumption. cbn [mbind option_bind].
  erewrite write_flag_obj by apply lookup_insert_eq.
  cbn [mbind option_bind].
  erewrite write_flag_obj by (by rewrite !lookup_insert_ne).
  cbn [mbind option_bind].
  erewrite write_flag_obj by (by rewrite !lookup_insert_ne).
  eexists; split; [reflexivity|].
  erewrite (read_flag_obj "graphVerilogMetadata" "graphSerialized")
    by (rewrite !lookup_insert_ne by done; apply lookup_insert_eq).
  erewrite (read_flag_obj "graphVerilogMetadata" "verilogGenerated")
    by (rewrite !lookup_insert_ne by done; apply lookup_insert_eq).
  erewrite (read_flag_obj "quartusMetadata" "quartusCompiled")
    by (rewrite !lookup_insert_ne by done; apply lookup_insert_eq).
  erewrite (read_flag_obj "databaseMetadata" "writtenToDB")
    by apply lookup_insert_eq.
  rewrite (lookup_insert_ne _ "verilogGenerated" "graphSerialized") by done.
  by rewrite !lookup_insert_eq.
Qed.

End Flags.

(** ** [uncheckMetadata] *)

Section Uncheck.
Import Broker.

Lemma parse_write path c (fs : FS) j :
  Fs.parse path fs = Some j →
  Fs.write path c fs = <[ path := File c ]> fs.
Proof.
  unfold Fs.parse, Fs.write.
  by destruct (fs !! path) as [[[]|]|].
Qed.

Lemma uncheckMetadata_missing path stage w :
  Fs.exists_ path (fs w) = false →
  uncheckMetadata path stage w = Next tt w.
Proof.
  intros H. unfold uncheckMetadata, mbind, prog_bind, get_world.
  by rewrite H.
Qed.

(** On a file that holds four flags, [uncheckMetadata] returns
    normally, rewrites that file only, and the file then holds the
    flags that [clear_flags] computes. *)
Lemma uncheckMetadata_stored path stage w ps :
  stored_flags path (fs w) = Some ps →
  ∃ w', uncheckMetadata path stage w = Next tt w'
    ∧ launched w' = launched w
    ∧ stored_flags path (fs w') = Some (clear_flags stage ps)
    ∧ ∀ p, p ≠ path → fs w' !! p = fs w !! p.
Proof.
  unfold stored_flags. intros H.
  destruct (Fs.parse path (fs w)) as [j|] eqn:Hj; [|done].
  simpl in H.
  destruct (read_store_flags j ps (clear_flags stage ps) H)
    as (j' & Hst & Hrd).
  exists (set_fs (Fs.write path (Doc j')) w).
  assert (Fs.exists_ path (fs w) = true) as Hex.
  { unfold Fs.exists_, Fs.parse in *. by destruct (fs w !! path). }
  split; [|split; [|split]].
  - unfold uncheckMetadata, mbind, prog_bind, get_world, modify.
    by rewrite Hex, Hj, H, Hst.
  - done.
  - simpl. rewrite (parse_write _ _ _ _ Hj).
    unfold Fs.parse. by rewrite lookup_insert_eq.
  - intros p Hp. simpl. rewrite (parse_write _ _ _ _ Hj).
    by rewrite lookup_insert_ne.
Qed.

Lemma clear_flags_at stage ps k :
  (0 ≤ stage)%Z → (k < 4)%nat →
  flag_at k (clear_flags stage ps)
  = if (stage <=? Z.of_nat k)%Z then false else flag_at k ps.
Proof.
  intros Hs Hk. unfold clear_flags.
  destruct k as [|[|[|[|k]]]]; [| | | |lia]; simpl flag_at;
    repeat match goal with
           | |- context [(?a <=? ?b)%Z] => destruct (Z.leb_spec a b)
           | |- context [(?a =? ?b)%Z] => destruct (Z.eqb_spec a b)
           end; try reflexivity; lia.
Qed.

Lemma clear_flags_prefix_closed stage ps :
  prefix_closed ps → prefix_closed (clear_flags stage ps).
Proof.
  intros Hps k i Hik Hk.
  pose proof (Hps 1%nat 0%nat) as H10. pose proof (Hps 2%nat 1%nat) as H21.
  pose proof (Hps 3%nat 2%nat) as H32.
  destruct ps as [g v q d]. unfold clear_flags. simpl in *.
  destruct k as [|[|[|[|k]]]]; [lia| | | |lia];
    destruct i as [|[|[|i]]]; try lia; simpl;
    repeat match goal with
           | |- context [(?a <=? ?b)%Z] => destruct (Z.leb_spec a b)
           | |- context [(?a =? ?b)%Z] => destruct (Z.eqb_spec a b)
           end; try done; try lia;
    destruct g, v, q, d; simpl in *; try done;
    try (by specialize (H10 ltac:(lia) ltac:(lia) eq_refl));
    try (by specialize (H21 ltac:(lia) ltac:(lia) eq_refl));
    try (by specialize (H32 ltac:(lia) ltac:(lia) eq_refl)).
Qed.

End Uncheck.

(** C3.  Clearing from the quartus stage (stage number 2) turns
    [quartusCompiled] and [writtenToDB] off and leaves [graphSerialized]
    and [verilogGenerated] as they were.  In general, for a stage number
    that is not negative, [uncheckMetadata] on a metadata file that holds
    the four flags returns normally and leaves in the file, at every
    pipeline position at or after the stage number, a cleared flag, and at
    every earlier position the flag that was there. *)
Theorem invalidation_clears_from_stage_on
  (path : string) (stage : Z) (w : Broker.world) (ps : Broker.ProjectSettings) :
  (0 ≤ stage)%Z →
  Broker.stored_flags path (Broker.fs w) = Some ps →
  ∃ w' ps',
    Broker.uncheckMetadata path stage w = Next tt w'
    ∧ Broker.stored_flags path (Broker.fs w') = Some ps'
    ∧ (∀ k : nat, (k < 4)%nat →
         flag_at k ps'
         = if (stage <=? Z.of_nat k)%Z then false else flag_at k ps)
    ∧ (stage = 2%Z →
         Broker.quartusCompiled ps' = false
         ∧ Broker.writtenToDB ps' = false
         ∧ Broker.graphSerialized ps' = Broker.graphSerialized ps
         ∧ Broker.verilogGenerated ps' = Broker.verilogGenerated ps).
Proof.
  intros Hs Hps.
  destruct (uncheckMetadata_stored path stage w ps Hps)
    as (w' & Hrun & _ & Hst & _).
  exists w', (Broker.clear_flags stage ps).
  split; [done|]. split; [done|]. split.
  - intros k Hk. by apply clear_flags_at.
  - intros ->. by destruct ps.
Qed.

Lemma invalidation_clears_from_stage_on_witness :
  ∃ w' ps',
    Broker.uncheckMetadata "loc/A_metadata.json" 2
      (Scenario.start (Scenario.project_A true true true true))
    = Next tt w'
    ∧ Broker.stored_flags "loc/A_metadata.json" (Broker.fs w') = Some ps'
    ∧ (∀ k : nat, (k < 4)%nat →
         flag_at k ps'
         = if (2 <=? Z.of_nat k)%Z then false
           else flag_at k
                  {| Broker.graphSerialized := true;
                     Broker.verilogGenerated := true;
                     Broker.quartusCompiled := true;
                     Broker.writtenToDB := true |})
    ∧ (2%Z = 2%Z →
         Broker.quartusCompiled ps' = false
         ∧ Broker.writtenToDB ps' = false
         ∧ Broker.graphSerialized ps' = true
         ∧ Broker.verilogGenerated ps' = true).
Proof.
  apply (invalidation_clears_from_stage_on "loc/A_metadata.json" 2
           (Scenario.start (Scenario.project_A true true true true))
           {| Broker.graphSerialized := true;
              Broker.verilogGenerated := true;
              Broker.quartusCompiled := true;
              Broker.writtenToDB := true |}).
  - lia.
  - vm_compute. reflexivity.
Defined.

(** ** One stage block of [Broker::main] *)

Section Blocks.
Import Broker.
Context (os : platform) (system : string → FS → Z * FS).

(** Once [uncheckMetadata] has returned, the block launches the tool on
    the filesystem it left, and nothing is written after that. *)
Lemma stage_block_launch t stage cmd a w u :
  uncheckMetadata (metadata_path a) stage w = Next tt u →
  stage_block system t stage cmd a w
  = let r := system cmd (fs u) in
    let w' := {| fs := r.2; launched := launched u ++ [(t, cmd)] |} in
    if (r.1 =? 0)%Z then Next tt w' else Done (Exit 1) w'.
Proof.
  intros H. unfold stage_block, mbind, prog_bind, runProcess.
  rewrite H. simpl. by destruct (_ =? _)%Z.
Qed.

Lemma stage_block_throw t stage cmd a w u :
  uncheckMetadata (metadata_path a) stage w = Raised u →
  stage_block system t stage cmd a w = Raised u.
Proof.
  intros H. unfold stage_block, mbind, prog_bind. by rewrite H.
Qed.

(** [uncheckMetadata] returns normally or throws, and never launches
    anything. *)
Lemma uncheckMetadata_cases path stage w :
  (∃ u, uncheckMetadata path stage w = Next tt u
        ∧ launched u = launched w)
  ∨ uncheckMetadata path stage w = Raised w.
Proof.
  unfold uncheckMetadata, mbind, prog_bind, get_world, modify, throw, mret,
    prog_ret.
  destruct (negb _); [left; eauto|].
  destruct (Fs.parse _ _); [|by right].
  destruct (read_flags _); [|by right].
  destruct (store_flags _ _); [|by right].
  left. eauto.
Qed.

End Blocks.

(** C1, as the code has it.  A stage block clears the flags from its stage
    number on in the stored record before it launches the tool.  When the
    tool exits with status 0, the block writes nothing more: the filesystem
    after the block is the one the tool left, so the stage's flags are true
    afterwards only if the tool itself has set them. *)
Theorem successful_stage_keeps_what_the_tool_left
  (system : string → FS → Z * FS) (t : Broker.tool) (stage : Z)
  (cmd : string) (a : Broker.arguments) (w : Broker.world)
  (ps : Broker.ProjectSettings) :
  Broker.stored_flags (Broker.metadata_path a) (Broker.fs w) = Some ps →
  ∃ u,
    Broker.uncheckMetadata (Broker.metadata_path a) stage w = Next tt u
    ∧ Broker.stored_flags (Broker.metadata_path a) (Broker.fs u)
      = Some (Broker.clear_flags stage ps)
    ∧ ((system cmd (Broker.fs u)).1 = 0%Z →
       Broker.stage_block system t stage cmd a w
       = Next tt {| Broker.fs := (system cmd (Broker.fs u)).2;
                    Broker.launched := (Broker.launched w ++ [(t, cmd)])%list |}).
Proof.
  intros Hps.
  destruct (uncheckMetadata_stored _ stage w ps Hps)
    as (u & Hrun & Hl & Hst & _).
  exists u. split; [done|]. split; [done|].
  intros H0. rewrite (stage_block_launch system t stage cmd a w u Hrun).
  simpl. by rewrite H0, Hl.
Qed.

Lemma successful_stage_keeps_what_the_tool_left_witness :
  ∃ u,
    Broker.uncheckMetadata (Broker.metadata_path Scenario.args_A) 2
      (Scenario.start (Scenario.project_A true true false false))
    = Next tt u
    ∧ Broker.stored_flags (Broker.metadata_path Scenario.args_A) (Broker.fs u)
      = Some (Broker.clear_flags 2
                {| Broker.graphSerialized := true;
                   Broker.verilogGenerated := true;
                   Broker.quartusCompiled := false;
                   Broker.writtenToDB := false |})
    ∧ ((Scenario.idle Scenario.quartus_A (Broker.fs u)).1 = 0%Z →
       Broker.stage_block Scenario.idle Broker.Quartus_compiler 2
         Scenario.quartus_A Scenario.args_A
         (Scenario.start (Scenario.project_A true true false false))
       = Next tt
           {| Broker.fs := (Scenario.idle Scenario.quartus_A (Broker.fs u)).2;
              Broker.launched := [(Broker.Quartus_compiler, Scenario.quartus_A)] |}).
Proof.
  apply (successful_stage_keeps_what_the_tool_left Scenario.idle
           Broker.Quartus_compiler 2 Scenario.quartus_A Scenario.args_A
           (Scenario.start (Scenario.project_A true true false false))).
  vm_compute. reflexivity.
Defined.

(** C1 as the specification words it fails: the compiler exits with
    status 0, [Broker] reports success, and the stored record still has
    [quartusCompiled] off, because [Broker] writes nothing after the tool
    has returned. *)
Lemma zero_exit_leaves_flag_unset :
  let w := Scenario.start (Scenario.project_A true true false false) in
  let r := Broker.main Broker.PLATFORM_LINUX Scenario.idle
             ["--project"; "-n"; "A"; "-l"; "loc"; "--quartus"] w in
  r.1 = Exit 0
  ∧ Broker.launched r.2
    = [(Broker.Project_manager,
        "../../../../../Project_manager/Project_manager -l loc -n A -o");
       (Broker.Quartus_compiler, Scenario.quartus_A)]
  ∧ (∀ fs, (Scenario.idle Scenario.quartus_A fs).1 = 0%Z)
  ∧ Broker.stored_flags "loc/A_metadata.json" (Broker.fs r.2)
    = Some {| Broker.graphSerialized := true;
              Broker.verilogGenerated := true;
              Broker.quartusCompiled := false;
              Broker.writtenToDB := false |}.
Proof. vm_compute. repeat split. Qed.



Section Rerun.
Import Broker.

Lemma flags_ext ps ps' :
  (∀ k, (k < 4)%nat → flag_at k ps = flag_at k ps') → ps = ps'.
Proof.
  intros H. destruct ps as [g v q d], ps' as [g' v' q' d'].
  pose proof (H 0%nat ltac:(lia)). pose proof (H 1%nat ltac:(lia)).
  pose proof (H 2%nat ltac:(lia)). pose proof (H 3%nat ltac:(lia)).
  simpl in *. by subst.
Qed.

(** Clearing again, after a change that has left the flags before the
    stage alone, gives what the first clearing gave. *)
Lemma clear_flags_absorbs stage (eff : ProjectSettings → ProjectSettings) ps :
  (0 ≤ stage)%Z →
  (∀ ps k, (k < 4)%nat → (Z.of_nat k < stage)%Z →
     flag_at k (eff ps) = flag_at k ps) →
  clear_flags stage (eff (clear_flags stage ps)) = clear_flags stage ps.
Proof.
  intros Hs Heff. apply flags_ext. intros k Hk.
  rewrite (clear_flags_at stage (eff _) k Hs Hk).
  destruct (Z.leb_spec stage (Z.of_nat k)) as [Hle|Hlt].
  - rewrite (clear_flags_at stage ps k Hs Hk).
    by destruct (Z.leb_spec stage (Z.of_nat k)); [|lia].
  - by apply Heff.
Qed.

(** A tool that sets its own success flags leaves the flags before its
    stage alone. *)
Lemma marked_keeps_upstream t stage ps k :
  stage_number t = Some stage →
  (k < 4)%nat → (Z.of_nat k < stage)%Z →
  flag_at k (marked t ps) = flag_at k ps.
Proof.
  destruct t; simpl; intros [= <-] Hk Hlt;
    destruct k as [|[|[|[|k]]]]; try reflexivity; lia.
Qed.

End Rerun.

(** C7, as the code has it.  [Broker] only clears flags; setting them is
    left to the tools.  Run the block of one stage twice in a row on a
    record that holds the four flags, the tool exiting with status 0 both
    times.  Suppose that what the tool does to the stored flags is the
    same function of the flags it finds on both runs, and that it leaves
    the flags before the stage as they are: a tool that sets its own
    success flags is of that kind, and so is one that never touches the
    record.  Then both runs return normally and the flags stored after
    the second run are those stored after the first. *)
Theorem rerun_of_a_stage_keeps_the_flags
  (system : string → FS → Z * FS) (t : Broker.tool) (stage : Z)
  (cmd : string) (a : Broker.arguments) (w0 u0 u1 : Broker.world)
  (f1 f2 : FS) (ps0 : Broker.ProjectSettings)
  (eff : Broker.ProjectSettings → Broker.ProjectSettings) :
  let path := Broker.metadata_path a in
  let w1 := {| Broker.fs := f1;
               Broker.launched := (Broker.launched w0 ++ [(t, cmd)])%list |} in
  let w2 := {| Broker.fs := f2;
               Broker.launched := (Broker.launched w1 ++ [(t, cmd)])%list |} in
  (0 ≤ stage)%Z →
  (∀ ps k, (k < 4)%nat → (Z.of_nat k < stage)%Z →
     flag_at k (eff ps) = flag_at k ps) →
  Broker.stored_flags path (Broker.fs w0) = Some ps0 →
  Broker.uncheckMetadata path stage w0 = Next tt u0 →
  system cmd (Broker.fs u0) = (0%Z, f1) →
  Broker.stored_flags path f1
  = eff <$> Broker.stored_flags path (Broker.fs u0) →
  Broker.uncheckMetadata path stage w1 = Next tt u1 →
  system cmd (Broker.fs u1) = (0%Z, f2) →
  Broker.stored_flags path f2
  = eff <$> Broker.stored_flags path (Broker.fs u1) →
  Broker.stage_block system t stage cmd a w0 = Next tt w1
  ∧ Broker.stage_block system t stage cmd a w1 = Next tt w2
  ∧ Broker.stored_flags path (Broker.fs w2)
    = Broker.stored_flags path (Broker.fs w1).
Proof.
  intros path w1 w2 Hs Heff Hps0 Hu0 Hrun1 Heff1 Hu1 Hrun2 Heff2.
  destruct (uncheckMetadata_stored path stage w0 ps0 Hps0)
    as (u0' & Hu0' & Hl0 & Hst0 & _).
  rewrite Hu0 in Hu0'. injection Hu0' as <-.
  rewrite Hst0 in Heff1. simpl in Heff1.
  destruct (uncheckMetadata_stored path stage w1 _ Heff1)
    as (u1' & Hu1' & Hl1 & Hst1 & _).
  rewrite Hu1 in Hu1'. injection Hu1' as <-.
  rewrite Hst1 in Heff2. simpl in Heff2.
  split; [|split].
  - rewrite (stage_block_launch system t stage cmd a w0 u0 Hu0), Hrun1.
    simpl. by rewrite Hl0.
  - rewrite (stage_block_launch system t stage cmd a w1 u1 Hu1), Hrun2.
    simpl. by rewrite Hl1.
  - simpl. rewrite Heff1, Heff2. f_equal. f_equal.
    by apply clear_flags_absorbs.
Qed.

Lemma rerun_of_a_stage_keeps_the_flags_witness :
  ∃ w1 w2,
    Broker.stage_block Scenario.marking_quartus Broker.Quartus_compiler 2
      Scenario.quartus_A Scenario.args_A
      (Scenario.start (Scenario.project_A true true false false))
    = Next tt w1
    ∧ Broker.stage_block Scenario.marking_quartus Broker.Quartus_compiler 2
        Scenario.quartus_A Scenario.args_A w1
      = Next tt w2
    ∧ Broker.stored_flags "loc/A_metadata.json" (Broker.fs w2)
      = Broker.stored_flags "loc/A_metadata.json" (Broker.fs w1).
Proof.
  do 2 eexists.
  eapply (λ u0 u1 f1 f2 ps0,
            rerun_of_a_stage_keeps_the_flags Scenario.marking_quartus
              Broker.Quartus_compiler 2 Scenario.quartus_A Scenario.args_A
              (Scenario.start (Scenario.project_A true true false false))
              u0 u1 f1 f2 ps0 (marked Broker.Quartus_compiler)).
  - lia.
  - intros ps k Hk Hlt. by apply (marked_keeps_upstream _ 2%Z).
  - vm_compute. reflexivity.
  - vm_compute. reflexivity.
  - vm_compute. reflexivity.
  - vm_compute. reflexivity.
  - vm_compute. reflexivity.
  - vm_compute. reflexivity.
  - vm_compute. reflexivity.
Defined.

(** C7 as the specification words it fails: a compiler that exits with
    status 0 on both runs but sets its flag only when it finds no
    bitstream of an earlier run.  After the first invocation the record
    has [quartusCompiled] on; the second invocation clears it, the
    compiler succeeds without setting it, and the record is left with
    [quartusCompiled] off. *)
Lemma rerun_can_lose_the_flag :
  let args := ["--project"; "-n"; "A"; "-l"; "loc"; "--quartus"] in
  let w0 := Scenario.start (Scenario.project_A true true false false) in
  let r1 := Broker.main Broker.PLATFORM_LINUX Scenario.forgetful_quartus
              args w0 in
  let r2 := Broker.main Broker.PLATFORM_LINUX Scenario.forgetful_quartus
              args r1.2 in
  (∀ command fs, (Scenario.forgetful_quartus command fs).1 = 0%Z)
  ∧ r1.1 = Exit 0
  ∧ r2.1 = Exit 0
  ∧ Broker.stored_flags "loc/A_metadata.json" (Broker.fs r1.2)
    = Some {| Broker.graphSerialized := true;
              Broker.verilogGenerated := true;
              Broker.quartusCompiled := true;
              Broker.writtenToDB := false |}
  ∧ Broker.stored_flags "loc/A_metadata.json" (Broker.fs r2.2)
    = Some {| Broker.graphSerialized := true;
              Broker.verilogGenerated := true;
              Broker.quartusCompiled := false;
              Broker.writtenToDB := false |}.
Proof.
  cbv zeta. split.
  - intros command fs. unfold Scenario.forgetful_quartus.
    by destruct (_ && _).
  - repeat apply conj; vm_compute; reflexivity.
Qed.

(** ** The argument loop of [Broker] *)

Section BrokerArguments.
Import Broker.

(** Induction that follows a loop reading one or two arguments at a
    time. *)
Lemma list_pair_ind {A} (P : list A → Prop) :
  P [] → (∀ x, P [x]) → (∀ x y l, P l → P (y :: l) → P (x :: y :: l)) →
  ∀ l, P l.
Proof.
  intros H0 H1 H2 l.
  assert (P l ∧ ∀ x, P (x :: l)) as [? _]; [|done].
  induction l as [|y l [IH1 IH2]]; split; auto.
Qed.

(** The loop touches nothing but its own variables, and does not
    throw. *)
Lemma parse_args_pure {W} args :
  ∀ b a (w : W),
    (∃ a', parse_args b args a w = Next a' w)
    ∨ (∃ o, parse_args b args a w = Done o w).
Proof.
  induction args as [|x|x y l IH1 IH2] using list_pair_ind; intros b a w.
  - left. by eexists.
  - cbn [parse_args]. unfold exit, leave.
    repeat case_match; eauto; left; by eexists.
  - remember (y :: l) as rest eqn:Hrest.
    cbn [parse_args]. unfold exit, leave.
    repeat case_match; simplify_eq; eauto.
Qed.



End BrokerArguments.

(** ** The order of the launches *)

Section Order.
Import Broker.
Context (os : platform) (system : string → FS → Z * FS).

Lemma manager_block_cases a w :
  let new := if launch_manager a
             then [(Project_manager, manager_command os a)] else [] in
  (∃ a' w', manager_block os system a w = Next a' w'
            ∧ launched w' = (launched w ++ new)%list
            ∧ requested a' = requested a)
  ∨ (∃ w', manager_block os system a w = Done (Exit 1) w'
           ∧ launched w' = (launched w ++ new)%list
           ∧ launch_manager a = true).
Proof.
  unfold manager_block, mbind, prog_bind, runProcess, mret, prog_ret, exit,
    leave.
  destruct (launch_manager a) eqn:Hm; simpl.
  - destruct (negb _); [right; eauto|].
    left. destruct (String.eqb _ _); do 2 eexists; repeat split.
  - left. do 2 eexists. repeat split. by rewrite app_nil_r.
Qed.

Lemma block_cases (flag : bool) t stage cmd a w :
  let block := if flag then stage_block system t stage cmd a else mret tt in
  let new := if flag then [(t, cmd)] else [] in
  (∃ w', block w = Next tt w' ∧ launched w' = (launched w ++ new)%list)
  ∨ (∃ w', block w = Done (Exit 1) w'
           ∧ launched w' = (launched w ++ new)%list ∧ flag = true)
  ∨ (block w = Raised w ∧ flag = true).
Proof.
  destruct flag; simpl.
  - destruct (uncheckMetadata_cases (metadata_path a) stage w)
      as [(u & Hu & Hl)|Hu].
    + rewrite (stage_block_launch system t stage cmd a w u Hu). simpl.
      rewrite Hl. destruct (_ =? _)%Z; [left|right; left]; eauto.
    + right; right. split; [|done]. by apply stage_block_throw.
  - left. eexists. split; [done|]. by rewrite app_nil_r.
Qed.

End Order.

Section AfterGraph.
Import Broker.
Context (os : platform) (system : string → FS → Z * FS).

(** The project stage hands on the stages asked for. *)
Lemma manager_block_keeps_stages a a' w w' :
  manager_block os system a w = Next a' w' →
  launch_graph a' = launch_graph a
  ∧ launch_quartus a' = launch_quartus a
  ∧ launch_db a' = launch_db a.
Proof.
  unfold manager_block, mbind, prog_bind, runProcess, mret, prog_ret, exit,
    leave.
  destruct (launch_manager a); [|by intros [= <- _]].
  destruct (negb _); [done|].
  destruct (String.eqb _ _); by intros [= <- _].
Qed.

(** What the stages after the graph stage launch comes after what has
    been launched before. *)
Lemma later_blocks_launch a w :
  ∃ rest,
    launched (run_main (quartus_block os system a;;
                        db_block os system a;; exit 0) w).2
    = (launched w ++ rest)%list.
Proof.
  unfold run_main, quartus_block, db_block, mbind, prog_bind.
  destruct (block_cases system (launch_quartus a) Quartus_compiler 2
              (quartus_command os a) a w)
    as [(w3 & -> & Hl3)|[(w3 & -> & Hl3 & _)|(-> & _)]]; simpl.
  2: { by eexists. }
  2: { exists []. by rewrite app_nil_r. }
  destruct (block_cases system (launch_db a) Database_writer 3
              (db_command os a) a w3)
    as [(w4 & -> & Hl4)|[(w4 & -> & Hl4 & _)|(-> & _)]]; simpl.
  - rewrite Hl4, Hl3, <- app_assoc. by eexists.
  - rewrite Hl4, Hl3, <- app_assoc. by eexists.
  - by eexists.
Qed.

(** A run whose graph stage finds no metadata file. *)
Lemma main_without_metadata args a0 a w0 w1 :
  parse_args false args initial_arguments w0 = Next a0 w0 →
  launch_graph a0 = true →
  manager_block os system a0 w0 = Next a w1 →
  Fs.exists_ (metadata_path a) (fs w1) = false →
  let r := system (graph_command os a) (fs w1) in
  let w2 := {| fs := r.2;
               launched :=
                 (launched w1
                  ++ [(Graph_verilog_generator, graph_command os a)])%list |} in
  main os system args w0
  = if (r.1 =? 0)%Z
    then run_main (quartus_block os system a;;
                   db_block os system a;; exit 0) w2
    else (Exit 1, w2).
Proof.
  intros Hparse Hg Hman Hex r w2.
  destruct (manager_block_keeps_stages _ _ _ _ Hman) as (Hg' & _ & _).
  rewrite Hg in Hg'.
  unfold main, main_body.
  destruct args as [|arg args].
  { simpl in Hparse. injection Hparse as <-. done. }
  unfold run_main, mbind, prog_bind. rewrite Hparse, Hman.
  unfold graph_block. rewrite Hg'.
  rewrite (stage_block_launch system _ _ _ _ _ _
             (uncheckMetadata_missing _ _ _ Hex)).
  cbv zeta. fold r. fold w2. by destruct (r.1 =? 0)%Z.
Qed.

End AfterGraph.

(** C2, as the code has it.  When a stage block is reached and no
    metadata file exists at the path it derives, [uncheckMetadata]
    changes nothing and the block goes on: the tool is launched on the
    untouched filesystem, and the block ends the program with status 1
    only when the tool answers a status other than 0.  So a run that asks
    for the graph stage, whose project stage was not asked for or has
    succeeded, launches the generator although the metadata file is
    missing; it ends with status 1 when the generator fails, and with
    status 0 when the generator succeeds and no later stage is asked
    for. *)
Theorem missing_metadata_still_launches :
  (∀ (system : string → FS → Z * FS) (t : Broker.tool) (stage : Z)
     (cmd : string) (a : Broker.arguments) (w : Broker.world),
     Fs.exists_ (Broker.metadata_path a) (Broker.fs w) = false →
     Broker.uncheckMetadata (Broker.metadata_path a) stage w = Next tt w
     ∧ Broker.stage_block system t stage cmd a w
       = let r := system cmd (Broker.fs w) in
         let w' := {| Broker.fs := r.2;
                      Broker.launched :=
                        (Broker.launched w ++ [(t, cmd)])%list |} in
         if (r.1 =? 0)%Z then Next tt w' else Done (Exit 1) w')
  ∧ (∀ (os : Broker.platform) (system : string → FS → Z * FS)
       (args : list string) (a0 a : Broker.arguments)
       (w0 w1 : Broker.world),
       Broker.parse_args false args Broker.initial_arguments w0
       = Next a0 w0 →
       Broker.launch_graph a0 = true →
       Broker.manager_block os system a0 w0 = Next a w1 →
       Fs.exists_ (Broker.metadata_path a) (Broker.fs w1) = false →
       let r := system (Broker.graph_command os a) (Broker.fs w1) in
       let w2 :=
         {| Broker.fs := r.2;
            Broker.launched :=
              (Broker.launched w1
               ++ [(Broker.Graph_verilog_generator,
                    Broker.graph_command os a)])%list |} in
       (∃ rest,
          Broker.launched (Broker.main os system args w0).2
          = (Broker.launched w1
             ++ (Broker.Graph_verilog_generator, Broker.graph_command os a)
                :: rest)%list)
       ∧ (r.1 ≠ 0%Z → Broker.main os system args w0 = (Exit 1, w2))
       ∧ (r.1 = 0%Z →
          Broker.launch_quartus a0 = false → Broker.launch_db a0 = false →
          Broker.main os system args w0 = (Exit 0, w2))).
Proof.
  split.
  - intros system t stage cmd a w H. split.
    + by apply uncheckMetadata_missing.
    + apply stage_block_launch. by apply uncheckMetadata_missing.
  - intros os system args a0 a w0 w1 Hparse Hg Hman Hex r w2.
    rewrite (main_without_metadata os system args a0 a w0 w1
               Hparse Hg Hman Hex).
    fold r. fold w2.
    destruct (manager_block_keeps_stages _ _ _ _ _ _ Hman) as (_ & Hq & Hd).
    split; [|split].
    + destruct (r.1 =? 0)%Z.
      * destruct (later_blocks_launch os system a w2) as [rest ->].
        exists rest. simpl. by rewrite <- app_assoc.
      * by exists [].
    + intros Hr. by destruct (Z.eqb_spec r.1 0).
    + intros Hr Hq0 Hd0. rewrite Hr. simpl.
      unfold run_main, Broker.quartus_block, Broker.db_block, mbind,
        prog_bind.
      by rewrite Hq, Hq0, Hd, Hd0.
Qed.

Lemma missing_metadata_still_launches_witness :
  Broker.stage_block Scenario.idle Broker.Graph_verilog_generator 0
    Scenario.graph_A Scenario.args_A (Scenario.start ∅)
  = Next tt {| Broker.fs := ∅;
               Broker.launched :=
                 [(Broker.Graph_verilog_generator, Scenario.graph_A)] |}
  ∧ Broker.main Broker.PLATFORM_LINUX Scenario.idle
      ["--project"; "-n"; "A"; "-l"; "loc"; "--erase"; "--graph"]
      (Scenario.start {[ "loc" := Dir [] ]})
    = (Exit 0,
       {| Broker.fs := {[ "loc" := Dir [] ]};
          Broker.launched :=
            [(Broker.Project_manager,
              "../../../../../Project_manager/Project_manager -l loc -n A -e");
             (Broker.Graph_verilog_generator, Scenario.graph_A)] |}).
Proof.
  destruct missing_metadata_still_launches as [Hblock Hmain]. split.
  - apply (Hblock Scenario.idle Broker.Graph_verilog_generator 0%Z
             Scenario.graph_A Scenario.args_A (Scenario.start ∅)).
    reflexivity.
  - edestruct (λ a0 a w1,
                 Hmain Broker.PLATFORM_LINUX Scenario.idle
                   ["--project"; "-n"; "A"; "-l"; "loc"; "--erase"; "--graph"]
                   a0 a (Scenario.start {[ "loc" := Dir [] ]}) w1)
      as (_ & _ & Hzero).
    + vm_compute. reflexivity.
    + reflexivity.
    + vm_compute. reflexivity.
    + vm_compute. reflexivity.
    + rewrite Hzero; [vm_compute; reflexivity|reflexivity|reflexivity
                     |reflexivity].
Defined.

(** C2 as the specification words it fails: the project is erased first,
    so no metadata file exists when the graph stage starts; the generator
    is launched all the same and the invocation ends with status 0. *)
Lemma missing_metadata_is_not_fatal :
  let w := Scenario.start {[ "loc" := Dir [] ]} in
  let r := Broker.main Broker.PLATFORM_LINUX Scenario.idle
             ["--project"; "-n"; "A"; "-l"; "loc"; "--erase"; "--graph"] w in
  Fs.exists_ "loc/A_metadata.json" (Broker.fs w) = false
  ∧ r.1 = Exit 0
  ∧ Broker.launched r.2
    = [(Broker.Project_manager,
        "../../../../../Project_manager/Project_manager -l loc -n A -e");
       (Broker.Graph_verilog_generator, Scenario.graph_A)].
Proof. vm_compute. repeat split. Qed.


Ltac settle_sublist :=
  simpl;
  repeat first [ apply sublist_nil_l | apply sublist_skip | apply sublist_cons ].

Ltac settle_order :=
  repeat match goal with
         | H : Broker.launched _ = _ |- _ => rewrite H; clear H
         end;
  rewrite <- ?app_assoc;
  eexists; split; [reflexivity|];
  split;
  [ repeat match goal with
           | |- context [if ?b then _ else _] => destruct b
           end;
    settle_sublist
  | intros ? [= <-]; unfold requested;
    repeat match goal with
           | H : _ = true |- _ => rewrite H; clear H
           end;
    repeat match goal with
           | |- context [if ?b then _ else _] => destruct b
           end;
    (split; [simpl; apply (bool_decide_unpack _); vm_compute; exact I|]);
    (split; [simpl; done|]);
    first [ done | intros _; simpl; by eexists ] ].

(** What one run of [Broker] launches. *)
Lemma main_launches
  (os : Broker.platform) (system : string → FS → Z * FS)
  (args : list string) (w : Broker.world) :
  ∃ new,
    Broker.launched (Broker.main os system args w).2
    = (Broker.launched w ++ new)%list
    ∧ new.*1 `sublist_of` pipeline
    ∧ ∀ a,
        Broker.parse_args false args Broker.initial_arguments w = Next a w →
        new.*1 `prefix_of` requested a
        ∧ ((Broker.main os system args w).1 = Exit 0 →
           new.*1 = requested a)
        ∧ (Broker.launch_manager a = true →
           ∃ rest,
             new = (Broker.Project_manager, Broker.manager_command os a)
                   :: rest).
Proof.
  unfold Broker.main, Broker.main_body, run_main.
  destruct args as [|arg args].
  { exists []. simpl. rewrite app_nil_r. split; [done|].
    split; [settle_sublist|]. by intros a [= <-]. }
  remember (arg :: args) as l eqn:Hl. clear Hl.
  unfold mbind, prog_bind.
  destruct (parse_args_pure l false Broker.initial_arguments w)
    as [[a Ha]|[o Ho]].
  2: { rewrite Ho. exists []. simpl. rewrite app_nil_r. split; [done|].
       split; [settle_sublist|]. done. }
  rewrite Ha.
  destruct (manager_block_cases os system a w)
    as [(a' & w1 & -> & Hl1 & Hreq)|(w1 & -> & Hl1 & Hm)].
  2: { simpl. settle_order. }
  unfold Broker.graph_block, Broker.quartus_block, Broker.db_block.
  assert (Broker.launch_graph a' = Broker.launch_graph a
          ∧ Broker.launch_quartus a' = Broker.launch_quartus a
          ∧ Broker.launch_db a' = Broker.launch_db a) as (Eg & Eq & Ed).
  { clear -Hreq. unfold requested in Hreq.
    destruct a as [m g q d], a' as [m' g' q' d']. simpl in *.
    destruct m, g, q, d, m', g', q', d'; simpl in Hreq; by try done. }
  destruct (block_cases system (Broker.launch_graph a')
              Broker.Graph_verilog_generator 0 (Broker.graph_command os a')
              a' w1)
    as [(w2 & -> & Hl2)|[(w2 & -> & Hl2 & Hg)|(-> & Hg)]]; simpl;
    rewrite ?Eg in *.
  2, 3: settle_order.
  destruct (block_cases system (Broker.launch_quartus a')
              Broker.Quartus_compiler 2 (Broker.quartus_command os a')
              a' w2)
    as [(w3 & -> & Hl3)|[(w3 & -> & Hl3 & Hq)|(-> & Hq)]]; simpl;
    rewrite ?Eq in *.
  2, 3: settle_order.
  destruct (block_cases system (Broker.launch_db a')
              Broker.Database_writer 3 (Broker.db_command os a')
              a' w3)
    as [(w4 & -> & Hl4)|[(w4 & -> & Hl4 & Hd)|(-> & Hd)]]; simpl;
    rewrite ?Ed in *.
  all: settle_order.
Qed.

(** C9.  Whatever the command line and whatever the tools answer, the
    processes one run of [Broker] launches are, in this order and each at
    most once, the project manager, the generator, the compiler and the
    database writer: the compiler is never launched before the generator
    nor the database writer before the compiler.  When the command line
    parses, what has been launched is a beginning of the requested tools
    taken in pipeline order, and all of them when the run ends with
    status 0. *)
Theorem stages_run_in_pipeline_order
  (os : Broker.platform) (system : string → FS → Z * FS)
  (args : list string) (w : Broker.world) :
  ∃ new,
    Broker.launched (Broker.main os system args w).2
    = (Broker.launched w ++ new)%list
    ∧ new.*1 `sublist_of` pipeline
    ∧ ∀ a,
        Broker.parse_args false args Broker.initial_arguments w = Next a w →
        new.*1 `prefix_of` requested a
        ∧ ((Broker.main os system args w).1 = Exit 0 →
           new.*1 = requested a).
Proof.
  destruct (main_launches os system args w) as (new & Hl & Hsub & H).
  exists new. split; [done|]. split; [done|].
  intros a Ha. destruct (H a Ha) as (? & ? & _). done.
Qed.

Lemma stages_run_in_pipeline_order_witness :
  (Broker.launched
     (Broker.main Broker.PLATFORM_LINUX Scenario.idle
        ["--database"; "--quartus"; "--graph"]
        (Scenario.start (Scenario.project_A false false false false))).2).*1
  = [Broker.Graph_verilog_generator; Broker.Quartus_compiler;
     Broker.Database_writer].
Proof.
  destruct (stages_run_in_pipeline_order Broker.PLATFORM_LINUX Scenario.idle
              ["--database"; "--quartus"; "--graph"]
              (Scenario.start (Scenario.project_A false false false false)))
    as (new & Hl & _ & H).
  rewrite Hl. simpl.
  edestruct H as [_ ->].
  - vm_compute. reflexivity.
  - vm_compute. reflexivity.
  - reflexivity.
Defined.

(** ** The argument loop of [Project_manager] *)

Section ManagerArguments.
Import Project_manager.



(** [main] once the command line is read. *)
Lemma manager_main_parsed args o fs :
  parse_args args initial_options fs = Next o fs →
  main args fs
  = run_main
      (if String.eqb (action o) "o" || String.eqb (action o) "r"
       then open_or_rename o
       else if String.eqb (action o) "c" then create o
       else if String.eqb (action o) "e" then erase o
       else mret tt) fs.
Proof.
  intros H. unfold main, main_body, run_main, mbind, prog_bind.
  by rewrite H.
Qed.

End ManagerArguments.



(** C8.  When the project directory or the metadata file is missing, the
    erase action ends with status 0 and the open and rename actions end
    with status 1; in both cases the filesystem is left as it was. *)
Theorem missing_project_exit_status
  (args : list string) (o : Project_manager.options) (fs : FS) :
  Project_manager.parse_args args Project_manager.initial_options fs
  = Next o fs →
  Fs.exists_ (Project_manager.location o) fs = false
  ∨ Fs.exists_ (Project_manager.metadata_location o) fs = false →
  (Project_manager.action o = "e" →
   Project_manager.main args fs = (Exit 0, fs))
  ∧ (Project_manager.action o = "o" ∨ Project_manager.action o = "r" →
     Project_manager.main args fs = (Exit 1, fs)).
Proof.
  intros Hparse Hmissing.
  rewrite (manager_main_parsed args o fs Hparse).
  split.
  - intros ->. simpl.
    unfold Project_manager.erase, run_main, mbind, prog_bind, get_world,
      exit, leave.
    destruct Hmissing as [-> | ->]; simpl; [done|].
    by destruct (negb _).
  - intros Hact.
    assert (String.eqb (Project_manager.action o) "o"
            || String.eqb (Project_manager.action o) "r" = true) as ->.
    { by destruct Hact as [-> | ->]. }
    unfold Project_manager.open_or_rename, run_main, mbind, prog_bind,
      get_world, exit, leave.
    destruct Hmissing as [-> | ->]; simpl; [done|].
    by destruct (negb _).
Qed.

Lemma missing_project_exit_status_witness :
  Project_manager.main ["-l"; "loc"; "-n"; "A"; "-e"] {[ "loc" := Dir [] ]}
  = (Exit 0, {[ "loc" := Dir [] ]})
  ∧ Project_manager.main ["-l"; "loc"; "-n"; "A"; "-o"] {[ "loc" := Dir [] ]}
    = (Exit 1, {[ "loc" := Dir [] ]})
  ∧ Project_manager.main ["-l"; "loc"; "-n"; "A"; "-r"; "B"] ∅
    = (Exit 1, ∅).
Proof.
  split; [|split].
  - eapply (missing_project_exit_status ["-l"; "loc"; "-n"; "A"; "-e"]).
    + vm_compute. reflexivity.
    + right. vm_compute. reflexivity.
    + reflexivity.
  - eapply (missing_project_exit_status ["-l"; "loc"; "-n"; "A"; "-o"]).
    + vm_compute. reflexivity.
    + right. vm_compute. reflexivity.
    + left. reflexivity.
  - eapply (missing_project_exit_status ["-l"; "loc"; "-n"; "A"; "-r"; "B"]).
    + vm_compute. reflexivity.
    + left. vm_compute. reflexivity.
    + right. reflexivity.
Defined.

(** ** Records of [Project_manager] as documents *)

Section Documents.
Import Project_manager.

(** [Broker] finds in a document written by [Project_manager] the four
    flags of the record. *)
Lemma read_flags_to_json ps :
  Broker.read_flags (to_json ps) = Some (flags_of ps).
Proof.
  destruct ps as [[n] [g v] [q dev] [ip user pass db port d]].
  reflexivity.
Qed.



(** Writing a record and reading it back gives the record, provided the
    port is a 32-bit integer. *)
Lemma from_json_to_json ps :
  Json.wrap_int (dbPort (databaseMetadata ps)) = dbPort (databaseMetadata ps) →
  from_json (to_json ps) = Some ps.
Proof.
  destruct ps as [[n] [g v] [q dev] [ip user pass db port d]]. simpl.
  intros Hport.
  change (from_json _)
    with (Some {| projectMetadata := {| name := n |};
                  graphVerilogMetadata :=
                    {| graphSerialized := g; verilogGenerated := v |};
                  quartusMetadata :=
                    {| quartusCompiled := q; deviceName := dev |};
                  databaseMetadata :=
                    {| dbIp := ip; dbUsername := user; dbPassword := pass;
                       dbName := db; dbPort := Json.wrap_int port;
                       writtenToDB := d |} |}).
  by rewrite Hport.
Qed.



Lemma at_key_index key j v :
  Json.at_key key j = Some v → Json.index key j = Some v.
Proof. destruct j; simpl; try done. by intros ->. Qed.

(** [Broker] finds in a document that [Project_manager] accepts the four
    flags of the record [Project_manager] reads from it. *)
Lemma from_json_read_flags j ps :
  from_json j = Some ps → Broker.read_flags j = Some (flags_of ps).
Proof.
  intros H.
  unfold from_json, from_json_ProjectMetadata, from_json_GraphVerilogMetadata,
    from_json_QuartusMetadata, from_json_DatabaseMetadata in H.
  repeat match type of H with
         | context [Json.at_key ?k ?x] =>
             let E := fresh "E" in
             destruct (Json.at_key k x) eqn:E; simpl in H; [|done]
         | context [Json.get_bool ?x] =>
             let E := fresh "B" in
             destruct (Json.get_bool x) eqn:E; simpl in H; [|done]
         | context [Json.get_string ?x] =>
             destruct (Json.get_string x); simpl in H; [|done]
         | context [Json.get_int ?x] =>
             destruct (Json.get_int x); simpl in H; [|done]
         end.
  injection H as <-.
  unfold Broker.read_flags, Broker.read_flag, flags_of.
  repeat match goal with
         | E : Json.at_key _ _ = Some _ |- _ =>
             rewrite (at_key_index _ _ _ E); cbn [mbind option_bind]
         | E : Json.get_bool _ = Some _ |- _ =>
             rewrite E; cbn [mbind option_bind]
         end.
  reflexivity.
Qed.

End Documents.

(** ** Filesystem calls *)

Section FileSystem.

Lemma exists_true p (fs : FS) n : fs !! p = Some n → Fs.exists_ p fs = true.
Proof. unfold Fs.exists_. by intros ->. Qed.

Lemma exists_false p (fs : FS) : fs !! p = None → Fs.exists_ p fs = false.
Proof. unfold Fs.exists_. by intros ->. Qed.

Lemma is_directory_true p (fs : FS) entries :
  fs !! p = Some (Dir entries) → Fs.is_directory p fs = true.
Proof. unfold Fs.is_directory. by intros ->. Qed.

Lemma write_fresh p c (fs : FS) :
  fs !! p = None → Fs.is_directory (Fs.parent p) fs = true →
  Fs.write p c fs = <[ p := File c ]> fs.
Proof. unfold Fs.write. by intros -> ->. Qed.

Lemma write_over p c c' (fs : FS) :
  fs !! p = Some (File c') → Fs.write p c fs = <[ p := File c ]> fs.
Proof. unfold Fs.write. by intros ->. Qed.

Lemma write_cases p c (fs : FS) :
  Fs.write p c fs = fs ∨ Fs.write p c fs = <[ p := File c ]> fs.
Proof.
  unfold Fs.write. destruct (fs !! p) as [[|]|]; auto.
  destruct (Fs.is_directory _ _); auto.
Qed.

Lemma remove_file p c (fs : FS) :
  fs !! p = Some (File c) → Fs.remove p fs = Some (delete p fs).
Proof. unfold Fs.remove. by intros ->. Qed.


Lemma remove_cases p (fs : FS) :
  Fs.remove p fs = None ∨ Fs.remove p fs = Some (delete p fs).
Proof.
  unfold Fs.remove. destruct (fs !! p) as [[|entries]|]; auto.
  destruct (Fs.is_empty _ _ _); auto.
Qed.

Lemma lookup_remove_all p (fs : FS) k :
  Fs.remove_all p fs !! k = if Fs.within p k then None else fs !! k.
Proof.
  unfold Fs.remove_all. destruct (Fs.within p k) eqn:E.
  - apply map_lookup_filter_None. right. intros x _. simpl. by rewrite E.
  - destruct (fs !! k) eqn:Hk.
    + by apply map_lookup_filter_Some.
    + apply map_lookup_filter_None. by left.
Qed.

(** What [moved] holds: at [new/r] what was stored at [old/r]. *)
Lemma lookup_moved_Some old new (fs : FS) k x :
  Fs.moved old new fs !! k = Some x
  ↔ ∃ r, k = new +:+ "/" +:+ r ∧ fs !! (old +:+ "/" +:+ r) = Some x.
Proof.
  unfold Fs.moved. rewrite <- elem_of_list_to_map.
  - rewrite list_elem_of_fmap. split.
    + intros ([k0 x0] & [= -> ->] & Hin).
      apply elem_of_map_to_list, map_lookup_filter_Some in Hin as [Hk0 HP].
      simpl in HP. apply below_spec in HP as [r ->].
      exists r. by rewrite drop_append.
    + intros (r & -> & Hx). exists (old +:+ "/" +:+ r, x). split.
      * simpl. by rewrite drop_append.
      * apply elem_of_map_to_list, map_lookup_filter_Some.
        split; [done|]. apply below_append.
  - rewrite <- list_fmap_compose. apply NoDup_fmap_2_strong.
    + intros [k1 x1] [k2 x2] H1 H2 Heq.
      apply elem_of_map_to_list, map_lookup_filter_Some in H1 as [H1 P1].
      apply elem_of_map_to_list, map_lookup_filter_Some in H2 as [H2 P2].
      simpl in *. apply below_spec in P1 as [r1 ->].
      apply below_spec in P2 as [r2 ->].
      rewrite !drop_append in Heq. do 2 apply String.app_inj in Heq.
      subst r2. rewrite H1 in H2. by injection H2 as ->.
    + apply NoDup_map_to_list.
Qed.


Lemma lookup_moved_outside old new (fs : FS) k :
  Fs.below new k = false → Fs.moved old new fs !! k = None.
Proof.
  intros Hk. apply eq_None_not_Some. intros [x Hx].
  apply lookup_moved_Some in Hx as (r & -> & _).
  by rewrite below_append in Hk.
Qed.

(** A directory renamed with what lies below it. *)
Lemma lookup_renamed old new n (fs : FS) k :
  (<[ new := n ]> (Fs.moved old new fs ∪ Fs.remove_all old fs)) !! k
  = if String.eqb k new then Some n
    else match Fs.moved old new fs !! k with
         | Some x => Some x
         | None => if Fs.within old k then None else fs !! k
         end.
Proof.
  destruct (String.eqb_spec k new) as [->|Hne].
  - apply lookup_insert_eq.
  - rewrite lookup_insert_ne by done. rewrite lookup_union.
    rewrite lookup_remove_all.
    destruct (Fs.moved old new fs !! k); simpl.
    + by destruct (if Fs.within old k then _ else _).
    + by destruct (if Fs.within old k then _ else _).
Qed.



Lemma make_directory_spec d (fs fs' : FS) :
  Fs.make_directory d fs = Some fs' →
  Fs.is_directory d fs' = true
  ∧ (∀ k, k ≠ d → fs' !! k = fs !! k)
  ∧ (∀ k n, fs !! k = Some n → fs' !! k = Some n).
Proof.
  unfold Fs.make_directory, Fs.is_directory.
  destruct (fs !! d) as [[|entries]|] eqn:Hd; intros [= <-].
  - by rewrite Hd.
  - rewrite lookup_insert_eq. split; [done|]. split.
    + intros k Hk. by rewrite lookup_insert_ne.
    + intros k n Hk. rewrite lookup_insert_ne; [done|]. by intros ->; rewrite Hd in Hk.
Qed.

Lemma make_directories_spec ds :
  ∀ fs fs' : FS,
    foldl (λ acc d, acc ≫= Fs.make_directory d) (Some fs) ds = Some fs' →
    (∀ d, d ∈ ds → Fs.is_directory d fs' = true)
    ∧ (∀ k, k ∉ ds → fs' !! k = fs !! k)
    ∧ (∀ k n, fs !! k = Some n → fs' !! k = Some n).
Proof.
  induction ds as [|d ds IH]; intros fs fs'; simpl.
  - intros [= <-]. split; [|done]. intros d. by rewrite elem_of_nil.
  - destruct (Fs.make_directory d fs) as [fs1|] eqn:Hd.
    2: { assert (∀ l : list string,
                   foldl (λ acc d, acc ≫= Fs.make_directory d) None l
                   = (None : option FS)) as ->; [|done].
         induction l; [done|]. simpl. done. }
    intros Hrest. apply make_directory_spec in Hd as (Hdir & Hother & Hkeep).
    destruct (IH fs1 fs' Hrest) as (Hdirs & Hothers & Hkeeps).
    split; [|split].
    + intros d' [->|Hin]%elem_of_cons; [|by apply Hdirs].
      unfold Fs.is_directory in *.
      destruct (fs1 !! d) as [[|entries]|] eqn:E; try done.
      by rewrite (Hkeeps _ _ E).
    + intros k [Hk Hin]%not_elem_of_cons. by rewrite Hothers, Hother.
    + intros k n Hk. by apply Hkeeps, Hkeep.
Qed.

Lemma directories_self p : p ∈ Fs.directories p.
Proof. unfold Fs.directories. rewrite elem_of_app, list_elem_of_singleton. auto. Qed.

Lemma directories_length p d :
  d ∈ Fs.directories p → (String.length d ≤ String.length p)%nat.
Proof.
  unfold Fs.directories. rewrite elem_of_app, list_elem_of_singleton.
  intros [[_ Hin]%list_elem_of_filter| ->]; [|done].
  by apply cuts_length in Hin.
Qed.

(** [create_directories] leaves what exists as it is and makes
    directories only. *)
Lemma create_directories_spec p (fs fs' : FS) :
  Fs.create_directories p fs = Some fs' →
  Fs.is_directory p fs' = true
  ∧ (∀ k, k ∉ Fs.directories p → fs' !! k = fs !! k)
  ∧ (∀ k n, fs !! k = Some n → fs' !! k = Some n).
Proof.
  unfold Fs.create_directories. destruct (String.eqb p ""); [done|].
  intros H. apply make_directories_spec in H as (Hdirs & Hothers & Hkeeps).
  split; [|done]. apply Hdirs, directories_self.
Qed.

End FileSystem.
(** ** The actions of [Project_manager] *)


Ltac unfold_paths :=
  unfold Project_manager.metadata_location, Project_manager.graph_location,
    Project_manager.verilog_location, Project_manager.new_metadata_location,
    Project_manager.new_graph_location, Project_manager.new_verilog_location
    in *.

(** [plain_name] settles that a project name with its ending is plain,
    [sibling] that one project path does not lie below another and that
    a project path has the project directory for its directory. *)
Ltac plain_name :=
  rewrite plain_append;
  repeat match goal with
         | H : plain _ = true |- _ => rewrite H
         end;
  reflexivity.

Ltac sibling :=
  unfold_paths;
  first [ apply below_sibling; plain_name | apply parent_in; plain_name ].

Section Actions.
Import Project_manager.

(** The six paths of a rename are pairwise different when the two names
    are. *)
Lemma rename_paths_differ o :
  opt_name o ≠ new_name o →
  let m := metadata_location o in
  let g := graph_location o in
  let v := verilog_location o in
  let m' := new_metadata_location o in
  let g' := new_graph_location o in
  let v' := new_verilog_location o in
  m ≠ m' ∧ g ≠ g' ∧ v ≠ v'
  ∧ m ≠ g ∧ m ≠ v ∧ g ≠ v ∧ m ≠ g' ∧ m ≠ v' ∧ g ≠ m' ∧ g ≠ v'
  ∧ v ≠ m' ∧ v ≠ g' ∧ m' ≠ g' ∧ m' ≠ v' ∧ g' ≠ v'.
Proof.
  intros Hne. unfold metadata_location, graph_location, verilog_location,
    new_metadata_location, new_graph_location, new_verilog_location.
  cbv zeta. repeat split; path_neq.
Qed.

(** The project directory is none of the six paths. *)
Lemma location_apart o :
  location o ≠ metadata_location o ∧ location o ≠ graph_location o
  ∧ location o ≠ verilog_location o ∧ location o ≠ new_metadata_location o
  ∧ location o ≠ new_graph_location o ∧ location o ≠ new_verilog_location o.
Proof. unfold_paths. repeat split; by apply append_neq_self. Qed.

Lemma location_is_not_metadata o : location o ≠ metadata_location o.
Proof. apply location_apart. Qed.


End Actions.

Section OpenRename.
Import Project_manager.

(** The open-or-rename branch up to the point where the record has been
    read and its name checked. *)
Lemma open_or_rename_checked o (fs : FS) j ps :
  Fs.exists_ (location o) fs = true →
  fs !! metadata_location o = Some (File (Doc j)) →
  from_json j = Some ps →
  open_or_rename o fs
  = if String.eqb (name (projectMetadata ps)) (opt_name o)
    then (if String.eqb (action o) "r" then rename_project o ps fs
          else Next tt fs)
    else Done (Exit 1) fs.
Proof.
  intros Hloc Hm Hps.
  unfold open_or_rename, readFile, parse_settings.
  cbv beta iota delta
    [mbind prog_bind mret prog_ret try_catch get_world exit leave throw].
  rewrite Hloc, (exists_true _ _ _ Hm). cbv beta iota delta [negb].
  rewrite Hm, Hps. cbv beta iota.
  destruct (String.eqb (name (projectMetadata ps)) (opt_name o));
    cbv beta iota; [|done].
  by destruct (String.eqb (action o) "r").
Qed.


(** [main] on a rename of a project that opens. *)
Lemma main_renames args o (fs : FS) j ps :
  parse_args args initial_options fs = Next o fs →
  action o = "r" →
  Fs.exists_ (location o) fs = true →
  fs !! metadata_location o = Some (File (Doc j)) →
  from_json j = Some ps →
  name (projectMetadata ps) = opt_name o →
  main args fs = run_main (rename_project o ps) fs.
Proof.
  intros Hparse Hact Hloc Hm Hps Hname.
  rewrite (manager_main_parsed args o fs Hparse), Hact.
  change (String.eqb "r" "o" || String.eqb "r" "r") with true.
  cbv beta iota. unfold run_main.
  rewrite (open_or_rename_checked o fs j ps Hloc Hm Hps), Hname, Hact.
  rewrite String.eqb_refl. change (String.eqb "r" "r") with true.
  reflexivity.
Qed.

End OpenRename.

Section Renamed.

Lemma lookup_renamed_apart old new n (fs : FS) k :
  k ≠ new → Fs.below new k = false → Fs.within old k = false →
  (<[ new := n ]> (Fs.moved old new fs ∪ Fs.remove_all old fs)) !! k
  = fs !! k.
Proof.
  intros Hne Hb Hw. rewrite lookup_renamed.
  apply String.eqb_neq in Hne. rewrite Hne.
  by rewrite (lookup_moved_outside _ _ _ _ Hb), Hw.
Qed.



End Renamed.

Section VerilogPaths.
Import Project_manager.


End VerilogPaths.





(** ** What a piece of code may change *)

Section Frame.
Import Project_manager.
Context (S : string → bool).

Lemma same_outside_refl (fs : FS) : same_outside S fs fs.
Proof. by intros p _. Qed.

Lemma same_outside_trans (fs1 fs2 fs3 : FS) :
  same_outside S fs1 fs2 → same_outside S fs2 fs3 → same_outside S fs1 fs3.
Proof. intros H12 H23 p Hp. by rewrite (H23 p Hp), (H12 p Hp). Qed.

Lemma same_outside_insert p n (fs : FS) :
  S p = true → same_outside S fs (<[ p := n ]> fs).
Proof.
  intros Hp q Hq. rewrite lookup_insert_ne; [done|]. intros ->. congruence.
Qed.

Lemma same_outside_delete p (fs : FS) :
  S p = true → same_outside S fs (delete p fs).
Proof.
  intros Hp q Hq. rewrite lookup_delete_ne; [done|]. intros ->. congruence.
Qed.











Lemma framed_rename old new :
  (∀ k, Fs.within old k = true → S k = true) →
  (∀ k, Fs.within new k = true → S k = true) →
  framed S (attempt (Fs.rename old new)).
Proof.
  intros Ho Hn fs. unfold attempt.
  assert (S old = true) as Sold. { apply Ho, within_spec. by left. }
  assert (S new = true) as Snew. { apply Hn, within_spec. by left. }
  assert (∀ n, same_outside S fs (<[ new := n ]> (delete old fs))) as Hfile.
  { intros n. apply (same_outside_trans _ (delete old fs));
      [by apply same_outside_delete|by apply same_outside_insert]. }
  assert (∀ n, same_outside S fs
                 (<[ new := n ]> (Fs.moved old new fs ∪ Fs.remove_all old fs)))
    as Hdir.
  { intros n k Hk. apply lookup_renamed_apart.
    - intros ->. congruence.
    - apply not_true_is_false. intros Hb.
      assert (S k = true); [|congruence].
      apply Hn, within_spec. by right.
    - apply not_true_is_false. intros Hw. apply Ho in Hw. congruence. }
  unfold Fs.rename.
  destruct (fs !! old) as [[c|entries]|]; [| |apply same_outside_refl].
  - destruct (String.eqb old new); [apply same_outside_refl|].
    destruct (fs !! new) as [[c'|entries']|];
      [apply Hfile|apply same_outside_refl|].
    destruct (Fs.is_directory _ _); [apply Hfile|apply same_outside_refl].
  - destruct (String.eqb old new); [apply same_outside_refl|].
    destruct (Fs.below old new); [apply same_outside_refl|].
    destruct (fs !! new) as [[c'|entries']|]; [apply same_outside_refl| |].
    + destruct (Fs.is_empty _ _ _); [apply Hdir|apply same_outside_refl].
    + destruct (Fs.is_directory _ _); [apply Hdir|apply same_outside_refl].
Qed.


End Frame.

Section Create.
Import Project_manager.

(** What the create branch does, in full. *)
Lemma create_result o (fs : FS) :
  create o fs
  = match (if Fs.exists_ (location o) fs then Some fs
           else Fs.create_directories (location o) fs) with
    | None => Done (Exit 1) fs
    | Some fs1 =>
        if Fs.exists_ (metadata_location o) fs1 then Done (Exit 1) fs1
        else Next tt
               (Fs.write (metadata_location o)
                  (Doc (to_json (set_name (opt_name o) default_settings)))
                  fs1)
    end.
Proof.
  unfold create.
  cbv beta iota delta
    [mbind prog_bind mret prog_ret try_catch modify attempt get_world exit
     leave].
  destruct (Fs.exists_ (location o) fs); cbv beta iota delta [negb].
  - by destruct (Fs.exists_ (metadata_location o) fs).
  - destruct (Fs.create_directories (location o) fs) as [fs1|]; [|done].
    by destruct (Fs.exists_ (metadata_location o) fs1).
Qed.

(** Making the project directory does not touch the metadata path. *)
Lemma metadata_is_no_directory o :
  metadata_location o ∉ Fs.directories (location o).
Proof.
  intros Hin. apply directories_length in Hin. unfold metadata_location in Hin.
  rewrite !length_append in Hin. simpl in Hin. lia.
Qed.

(** The directory the create branch works in, when there is one. *)
Lemma create_directory_ready o (fs : FS) :
  can_hold_project (location o) fs = true →
  ∃ fs0,
    (if Fs.exists_ (location o) fs then Some fs
     else Fs.create_directories (location o) fs) = Some fs0
    ∧ Fs.is_directory (location o) fs0 = true
    ∧ fs0 !! metadata_location o = fs !! metadata_location o.
Proof.
  unfold can_hold_project, Fs.exists_, Fs.is_directory.
  destruct (fs !! location o) as [[c|entries]|] eqn:Hloc; [done| |].
  - intros _. exists fs. by rewrite Hloc.
  - intros Hcan. apply bool_decide_eq_true in Hcan as [fs0 Hfs0].
    exists fs0. split; [done|].
    apply create_directories_spec in Hfs0 as (Hdir & Hother & _).
    split; [exact Hdir|]. apply Hother, metadata_is_no_directory.
Qed.

(** Creating a project with a plain name whose metadata file does not
    exist, in a directory that exists or can be made, writes the default
    record under the project's name. *)
Lemma create_writes o (fs : FS) :
  plain (opt_name o) = true →
  can_hold_project (location o) fs = true →
  Fs.exists_ (metadata_location o) fs = false →
  ∃ fs0,
    (if Fs.exists_ (location o) fs then Some fs
     else Fs.create_directories (location o) fs) = Some fs0
    ∧ Fs.is_directory (location o) fs0 = true
    ∧ fs0 !! metadata_location o = None
    ∧ create o fs
      = Next tt
          (<[ metadata_location o :=
                File (Doc (to_json (set_name (opt_name o) default_settings))) ]>
             fs0).
Proof.
  intros Hplain Hcan Hm.
  destruct (create_directory_ready o fs Hcan) as (fs0 & Hfs0 & Hdir & Hsame).
  assert (fs0 !! metadata_location o = None) as Hnone.
  { rewrite Hsame. unfold Fs.exists_ in Hm.
    by destruct (fs !! metadata_location o). }
  exists fs0. split; [done|]. split; [done|]. split; [done|].
  rewrite create_result, Hfs0, (exists_false _ _ Hnone).
  rewrite write_fresh; [done|done|].
  assert (Fs.parent (metadata_location o) = location o) as -> by sibling.
  done.
Qed.

Lemma all_clear_prefix_closed ps :
  (∀ k, flag_at k ps = false) → prefix_closed ps.
Proof. intros H k i _ _ Hk. by rewrite H in Hk. Qed.

(** The flags of a record that has just been created. *)
Lemma created_flags o (fs : FS) :
  ∃ ps',
    Broker.stored_flags (metadata_location o)
      (<[ metadata_location o :=
            File (Doc (to_json (set_name (opt_name o) default_settings))) ]> fs)
    = Some ps'
    ∧ (∀ k, flag_at k ps' = false) ∧ prefix_closed ps'.
Proof.
  eexists. split; [|split].
  - unfold Broker.stored_flags, Fs.parse. rewrite lookup_insert_eq.
    simpl. apply read_flags_to_json.
  - by intros [|[|[|k]]].
  - apply all_clear_prefix_closed. by intros [|[|[|k]]].
Qed.

End Create.

Section RenameRecord.
Import Project_manager.

Lemma when_exists_missing p body (fs : FS) :
  fs !! p = None → when_exists p body fs = Next tt fs.
Proof.
  intros H. unfold when_exists.
  cbv beta iota delta [mbind prog_bind mret prog_ret get_world].
  by rewrite (exists_false _ _ H).
Qed.

Lemma attempt_remove_file p c (fs : FS) :
  fs !! p = Some (File c) → attempt (Fs.remove p) fs = Next tt (delete p fs).
Proof. intros H. unfold attempt. by rewrite (remove_file _ _ _ H). Qed.

(** [if (exists(p)) rename(p, q)] returns or throws, and changes nothing
    outside the two paths and what lies below them. *)
Lemma move_cases p q (fs : FS) :
  ∃ fs',
    (when_exists p (attempt (Fs.rename p q)) fs = Next tt fs'
     ∨ when_exists p (attempt (Fs.rename p q)) fs = Raised fs')
    ∧ same_outside (λ k, Fs.within p k || Fs.within q k) fs fs'.
Proof.
  pose proof (framed_rename (λ k, Fs.within p k || Fs.within q k) p q) as H.
  specialize (H (λ k Hk, orb_true_intro _ _ (or_introl Hk))
                (λ k Hk, orb_true_intro _ _ (or_intror Hk)) fs).
  unfold when_exists.
  cbv beta iota delta [mbind prog_bind mret prog_ret get_world attempt] in *.
  destruct (Fs.exists_ p fs).
  - destruct (Fs.rename p q fs) as [fs'|]; eauto.
  - exists fs. split; [by left|]. by intros k _.
Qed.

(** With plain names, a rename of a project whose metadata file holds a
    record leaves the record under the new name whatever becomes of the
    graph file and of the Verilog directory, provided the new metadata
    path is not a directory and the project directory is one. *)
Lemma rename_project_writes_record o ps (fs : FS) el c :
  opt_name o ≠ new_name o →
  plain (opt_name o) = true → plain (new_name o) = true →
  fs !! location o = Some (Dir el) →
  fs !! metadata_location o = Some (File c) →
  (∀ entries, fs !! new_metadata_location o ≠ Some (Dir entries)) →
  ∃ out fs',
    run_main (rename_project o ps) fs = (out, fs')
    ∧ (out = Exit 0 ∨ out = Exit 1)
    ∧ fs' !! metadata_location o = None
    ∧ fs' !! new_metadata_location o
      = Some (File (Doc (to_json (set_name (new_name o) ps)))).
Proof.
  intros Hne Hpo Hpn Hloc Hm Hm'.
  destruct (rename_paths_differ o Hne)
    as (Emm' & Egg' & Evv' & Emg & Emv & Egv & Emg' & Emv' & Egm' & Egv'
        & Evm' & Evg' & Em'g' & Em'v' & Eg'v').
  set (doc := Doc (to_json (set_name (new_name o) ps))).
  assert (Fs.write (new_metadata_location o) doc fs
          = <[ new_metadata_location o := File doc ]> fs) as Hwrite.
  { destruct (fs !! new_metadata_location o) as [[c'|entries]|] eqn:E.
    - by apply (write_over _ _ c').
    - by destruct (Hm' entries).
    - apply write_fresh; [done|].
      assert (Fs.parent (new_metadata_location o) = location o) as ->
        by sibling.
      by apply (is_directory_true _ _ el). }
  set (fs2 := delete (metadata_location o)
                (<[ new_metadata_location o := File doc ]> fs)).
  assert (fs2 !! metadata_location o = None) as H2m.
  { apply lookup_delete_eq. }
  assert (fs2 !! new_metadata_location o = Some (File doc)) as H2m'.
  { subst fs2. by rewrite lookup_delete_ne, lookup_insert_eq. }
  (* neither metadata path is at or below a graph or Verilog path *)
  assert (∀ p q k,
            p ∈ [graph_location o; verilog_location o] →
            q ∈ [new_graph_location o; new_verilog_location o] →
            k ∈ [metadata_location o; new_metadata_location o] →
            Fs.within p k || Fs.within q k = false) as Hout.
  { intros p q k Hp Hq Hk. apply orb_false_iff.
    rewrite !within_false.
    rewrite !elem_of_cons, elem_of_nil in Hp, Hq, Hk.
    destruct Hp as [->|[->|[]]], Hq as [->|[->|[]]], Hk as [->|[->|[]]];
      repeat split; first [ done | by apply not_eq_sym | sibling ]. }
  unfold rename_project, run_main.
  cbv beta iota zeta delta [try_catch mbind prog_bind modify].
  fold doc. rewrite Hwrite.
  rewrite (attempt_remove_file _ c)
    by (rewrite lookup_insert_ne by done; exact Hm).
  fold fs2.
  destruct (move_cases (graph_location o) (new_graph_location o) fs2)
    as (fs3 & [-> | ->] & Hgraph).
  2: { exists (Exit 1), fs3. split; [done|]. split; [by right|].
       rewrite !Hgraph by (apply Hout; set_solver). done. }
  assert (fs3 !! metadata_location o = None) as H3m.
  { by rewrite Hgraph by (apply Hout; set_solver). }
  assert (fs3 !! new_metadata_location o = Some (File doc)) as H3m'.
  { by rewrite Hgraph by (apply Hout; set_solver). }
  rewrite (when_exists_missing _ _ _ H3m).
  destruct (move_cases (verilog_location o) (new_verilog_location o) fs3)
    as (fs4 & [-> | ->] & Hverilog).
  - exists (Exit 0), fs4. split; [done|]. split; [by left|].
    rewrite !Hverilog by (apply Hout; set_solver). done.
  - exists (Exit 1), fs4. split; [done|]. split; [by right|].
    rewrite !Hverilog by (apply Hout; set_solver). done.
Qed.

End RenameRecord.

(** ** Where the files of a filesystem come from *)

Section Provenance.
Import Project_manager.
Context (fs0 : FS) (c0 : content).

Lemma files_from_refl : files_from fs0 c0 fs0.
Proof. intros p c H. right. by exists p. Qed.

Lemma files_from_insert_new p (fs : FS) :
  files_from fs0 c0 fs → files_from fs0 c0 (<[ p := File c0 ]> fs).
Proof.
  intros H q c. destruct (decide (q = p)) as [->|Hne].
  - rewrite lookup_insert_eq. intros [= <-]. by left.
  - rewrite lookup_insert_ne by done. apply H.
Qed.

Lemma files_from_insert_old p q n (fs : FS) :
  files_from fs0 c0 fs → fs !! q = Some n →
  files_from fs0 c0 (<[ p := n ]> fs).
Proof.
  intros H Hq k c. destruct (decide (k = p)) as [->|Hne].
  - rewrite lookup_insert_eq. intros [= ->]. by apply (H q).
  - rewrite lookup_insert_ne by done. apply H.
Qed.

Lemma files_from_delete p (fs : FS) :
  files_from fs0 c0 fs → files_from fs0 c0 (delete p fs).
Proof.
  intros H q c. destruct (decide (q = p)) as [->|Hne].
  - by rewrite lookup_delete_eq.
  - rewrite lookup_delete_ne by done. apply H.
Qed.

Lemma files_from_remove_all p (fs : FS) :
  files_from fs0 c0 fs → files_from fs0 c0 (Fs.remove_all p fs).
Proof.
  intros H q c. rewrite lookup_remove_all.
  destruct (Fs.within p q); [done|]. apply H.
Qed.

Lemma files_from_renamed old new n (fs : FS) :
  files_from fs0 c0 fs → fs !! old = Some n →
  files_from fs0 c0
    (<[ new := n ]> (Fs.moved old new fs ∪ Fs.remove_all old fs)).
Proof.
  intros H Hold q c. rewrite lookup_renamed.
  destruct (String.eqb q new).
  { intros [= ->]. by apply (H old). }
  destruct (Fs.moved old new fs !! q) as [x|] eqn:E.
  - intros [= ->]. apply lookup_moved_Some in E as (r & _ & Hr).
    by apply (H _ _ Hr).
  - destruct (Fs.within old q); [done|]. apply H.
Qed.

Lemma files_from_rename old new (fs fs' : FS) :
  files_from fs0 c0 fs → Fs.rename old new fs = Some fs' →
  files_from fs0 c0 fs'.
Proof.
  intros H. unfold Fs.rename.
  destruct (fs !! old) as [n|] eqn:Hold; [|done].
  destruct (String.eqb old new); [by intros [= <-]|].
  destruct n as [c|entries].
  - assert (files_from fs0 c0 (<[ new := File c ]> (delete old fs))) as Hf.
    { intros q x. destruct (decide (q = new)) as [->|Hne].
      - rewrite lookup_insert_eq. intros [= <-]. by apply (H old).
      - rewrite lookup_insert_ne by done. by apply files_from_delete. }
    destruct (fs !! new) as [[c'|entries']|]; [by intros [= <-]|done|].
    destruct (Fs.is_directory _ _); [by intros [= <-]|done].
  - pose proof (files_from_renamed old new (Dir entries) fs H Hold) as Hd.
    destruct (Fs.below old new); [done|].
    destruct (fs !! new) as [[c'|entries']|]; [done| |].
    + destruct (Fs.is_empty _ _ _); [by intros [= <-]|done].
    + destruct (Fs.is_directory _ _); [by intros [= <-]|done].
Qed.

Lemma ensures_ret {A} (a : A) : ensures (files_from fs0 c0) (mret a).
Proof. by intros fs H. Qed.

Lemma ensures_exit {A} code : ensures (files_from fs0 c0) (exit (A := A) code).
Proof. by intros fs H. Qed.

Lemma ensures_bind {A B} (I : FS → Prop) (c : prog FS A) (k : A → prog FS B) :
  ensures I c → (∀ a, ensures I (k a)) → ensures I (c ≫= k).
Proof.
  intros Hc Hk fs HI. unfold mbind, prog_bind.
  specialize (Hc fs HI). destruct (c fs) as [a fs1|o fs1|fs1]; try done.
  by apply Hk.
Qed.

Lemma ensures_try_catch {A} (I : FS → Prop) (body handler : prog FS A) :
  ensures I body → ensures I handler → ensures I (try_catch body handler).
Proof.
  intros Hb Hh fs HI. unfold try_catch.
  specialize (Hb fs HI). destruct (body fs) as [a fs1|o fs1|fs1]; try done.
  by apply Hh.
Qed.

Lemma ensures_when_exists (I : FS → Prop) p body :
  ensures I body → ensures I (when_exists p body).
Proof.
  intros Hb fs HI. unfold when_exists.
  cbv beta iota delta [mbind prog_bind mret prog_ret get_world].
  destruct (Fs.exists_ p fs); [by apply Hb|done].
Qed.

Lemma ensures_write p :
  ensures (files_from fs0 c0) (modify (Fs.write p c0)).
Proof.
  intros fs H. unfold modify.
  destruct (write_cases p c0 fs) as [-> | ->];
    [done|by apply files_from_insert_new].
Qed.

Lemma ensures_remove p :
  ensures (files_from fs0 c0) (attempt (Fs.remove p)).
Proof.
  intros fs H. unfold attempt.
  destruct (remove_cases p fs) as [-> | ->];
    [done|by apply files_from_delete].
Qed.

Lemma ensures_rename old new :
  ensures (files_from fs0 c0) (attempt (Fs.rename old new)).
Proof.
  intros fs H. unfold attempt.
  destruct (Fs.rename old new fs) as [fs'|] eqn:E; [|done].
  by apply (files_from_rename old new fs).
Qed.

End Provenance.

(** Whatever the names, a rename leaves in regular files only what
    regular files held before, and the record it writes. *)
Lemma rename_project_files (fs0 : FS) o ps :
  ensures
    (files_from fs0
       (Doc (Project_manager.to_json
               (Project_manager.set_name (Project_manager.new_name o) ps))))
    (Project_manager.rename_project o ps).
Proof.
  unfold Project_manager.rename_project. cbv zeta.
  apply ensures_try_catch; [|apply ensures_exit].
  apply ensures_bind; [apply ensures_write|intros _].
  apply ensures_bind; [apply ensures_remove|intros _].
  apply ensures_bind; [apply ensures_when_exists, ensures_rename|intros _].
  apply ensures_bind; [apply ensures_when_exists, ensures_rename|intros _].
  apply ensures_when_exists, ensures_rename.
Qed.

Section MainByAction.
Import Project_manager.

(** [main] on a create. *)
Lemma main_creates args o (fs : FS) :
  parse_args args initial_options fs = Next o fs →
  action o = "c" →
  main args fs = run_main (create o) fs.
Proof.
  intros Hparse Hact.
  by rewrite (manager_main_parsed args o fs Hparse), Hact.
Qed.


End MainByAction.

(** C5.  Each record the programs write is prefix-closed when the record
    it comes from is.  Creation: whatever a run of the create action
    does, the metadata file is afterwards as it was before or holds a
    record with the four flags off; and it does hold such a record, the
    run ending with status 0, when the name is plain, the directory
    exists or can be made, and no metadata file was there.
    Invalidation: [uncheckMetadata], for any stage number, turns a stored
    record whose flags are prefix-closed into one whose flags are
    prefix-closed.  Rename: a run of the rename action on a project that
    opens, for two different plain names, leaves under the new name a
    record that has the flags of the record stored under the old name,
    whatever becomes of the graph file and of the Verilog directory; and,
    whatever the names, every regular file found after the run holds
    what some regular file held before it or the record the run has
    written, whose flags are those of the record it has read. *)
Theorem written_records_are_prefix_closed :
  (∀ (args : list string) (o : Project_manager.options) (fs : FS),
     Project_manager.parse_args args Project_manager.initial_options fs
     = Next o fs →
     Project_manager.action o = "c" →
     let fs' := (Project_manager.main args fs).2 in
     (fs' !! Project_manager.metadata_location o
      = fs !! Project_manager.metadata_location o
      ∨ ∃ ps',
          Broker.stored_flags (Project_manager.metadata_location o) fs'
          = Some ps'
          ∧ (∀ k, flag_at k ps' = false)
          ∧ prefix_closed ps')
     ∧ (plain (Project_manager.opt_name o) = true →
        can_hold_project (Project_manager.location o) fs = true →
        Fs.exists_ (Project_manager.metadata_location o) fs = false →
        (Project_manager.main args fs).1 = Exit 0
        ∧ ∃ ps',
            Broker.stored_flags (Project_manager.metadata_location o) fs'
            = Some ps'
            ∧ (∀ k, flag_at k ps' = false)
            ∧ prefix_closed ps'))
  ∧ (∀ (path : string) (stage : Z) (w : Broker.world)
       (ps : Broker.ProjectSettings),
       Broker.stored_flags path (Broker.fs w) = Some ps →
       prefix_closed ps →
       ∃ w' ps',
         Broker.uncheckMetadata path stage w = Next tt w'
         ∧ Broker.stored_flags path (Broker.fs w') = Some ps'
         ∧ prefix_closed ps')
  ∧ (∀ (args : list string) (o : Project_manager.options) (fs : FS)
       (j : json) (ps : Project_manager.ProjectSettings)
       (el : list string) (ps0 : Broker.ProjectSettings),
       Project_manager.parse_args args Project_manager.initial_options fs
       = Next o fs →
       Project_manager.action o = "r" →
       Project_manager.opt_name o ≠ Project_manager.new_name o →
       plain (Project_manager.opt_name o) = true →
       plain (Project_manager.new_name o) = true →
       fs !! Project_manager.location o = Some (Dir el) →
       fs !! Project_manager.metadata_location o = Some (File (Doc j)) →
       Project_manager.from_json j = Some ps →
       Project_manager.name (Project_manager.projectMetadata ps)
       = Project_manager.opt_name o →
       (∀ entries,
          fs !! Project_manager.new_metadata_location o
          ≠ Some (Dir entries)) →
       Broker.stored_flags (Project_manager.metadata_location o) fs
       = Some ps0 →
       prefix_closed ps0 →
       ∃ ps',
         Broker.stored_flags (Project_manager.new_metadata_location o)
           (Project_manager.main args fs).2
         = Some ps'
         ∧ ps' = ps0
         ∧ prefix_closed ps')
  ∧ (∀ (args : list string) (o : Project_manager.options) (fs : FS)
       (j : json) (ps : Project_manager.ProjectSettings),
       Project_manager.parse_args args Project_manager.initial_options fs
       = Next o fs →
       Project_manager.action o = "r" →
       fs !! Project_manager.metadata_location o = Some (File (Doc j)) →
       Project_manager.from_json j = Some ps →
       Project_manager.name (Project_manager.projectMetadata ps)
       = Project_manager.opt_name o →
       let written :=
         Project_manager.to_json
           (Project_manager.set_name (Project_manager.new_name o) ps) in
       files_from fs (Doc written) (Project_manager.main args fs).2
       ∧ Broker.read_flags written = Broker.read_flags j).
Proof.
  split; [|split; [|split]].
  - intros args o fs Hparse Hact fs'. subst fs'.
    rewrite (main_creates args o fs Hparse Hact). unfold run_main. split.
    + rewrite create_result.
      assert (∃ fs0,
                (if Fs.exists_ (Project_manager.location o) fs then Some fs
                 else Fs.create_directories (Project_manager.location o) fs)
                = fs0
                ∧ ∀ fs1, fs0 = Some fs1 →
                    fs1 !! Project_manager.metadata_location o
                    = fs !! Project_manager.metadata_location o)
        as (fs0 & -> & Hsame).
      { eexists. split; [reflexivity|]. intros fs1.
        destruct (Fs.exists_ (Project_manager.location o) fs).
        - by intros [= <-].
        - intros (_ & Hother & _)%create_directories_spec.
          apply Hother, metadata_is_no_directory. }
      destruct fs0 as [fs1|]; [|by left].
      specialize (Hsame fs1 eq_refl).
      destruct (Fs.exists_ (Project_manager.metadata_location o) fs1);
        [by left|].
      simpl.
      destruct (write_cases (Project_manager.metadata_location o)
                  (Doc (Project_manager.to_json
                          (Project_manager.set_name
                             (Project_manager.opt_name o)
                             Project_manager.default_settings))) fs1)
        as [-> | ->]; [by left|].
      right. apply created_flags.
    + intros Hplain Hcan Hm.
      destruct (create_writes o fs Hplain Hcan Hm) as (fs0 & _ & _ & _ & ->).
      split; [done|]. apply created_flags.
  - intros path stage w ps Hps Hclosed.
    destruct (uncheckMetadata_stored path stage w ps Hps)
      as (w' & Hrun & _ & Hst & _).
    exists w', (Broker.clear_flags stage ps).
    split; [done|]. split; [done|]. by apply clear_flags_prefix_closed.
  - intros args o fs j ps el ps0 Hparse Hact Hne Hpo Hpn Hloc Hm Hps Hname
      Hm' Hps0 Hclosed.
    rewrite (main_renames args o fs j ps Hparse Hact
               (exists_true _ _ _ Hloc) Hm Hps Hname).
    destruct (rename_project_writes_record o ps fs el _ Hne Hpo Hpn Hloc Hm Hm')
      as (out & fs' & -> & _ & _ & Hdoc).
    exists ps0. split; [|done].
    unfold Broker.stored_flags, Fs.parse in *. rewrite Hm in Hps0.
    simpl in *. rewrite Hdoc. simpl.
    rewrite read_flags_to_json.
    by rewrite (from_json_read_flags j ps Hps) in Hps0.
  - intros args o fs j ps Hparse Hact Hm Hps Hname written. split.
    + destruct (Fs.exists_ (Project_manager.location o) fs) eqn:Hloc.
      * rewrite (main_renames args o fs j ps Hparse Hact Hloc Hm Hps Hname).
        pose proof (rename_project_files fs o ps fs (files_from_refl fs _))
          as Hkeep.
        unfold run_main.
        by destruct (Project_manager.rename_project o ps fs).
      * rewrite (manager_main_parsed args o fs Hparse), Hact.
        change (String.eqb "r" "o" || String.eqb "r" "r") with true.
        unfold Project_manager.open_or_rename, run_main.
        cbv beta iota delta [mbind prog_bind get_world exit leave].
        rewrite Hloc. apply files_from_refl.
    + subst written.
      by rewrite read_flags_to_json, (from_json_read_flags j ps Hps).
Qed.

Lemma written_records_are_prefix_closed_witness :
  ((Project_manager.main ["-l"; "loc"; "-n"; "A"; "-c"] ∅).1 = Exit 0
   ∧ ∃ ps',
       Broker.stored_flags "loc/A_metadata.json"
         (Project_manager.main ["-l"; "loc"; "-n"; "A"; "-c"] ∅).2
       = Some ps'
       ∧ (∀ k, flag_at k ps' = false)
       ∧ prefix_closed ps')
  ∧ (∃ w' ps',
       Broker.uncheckMetadata "loc/A_metadata.json" 3
         (Scenario.start (Scenario.project_A true true true true))
       = Next tt w'
       ∧ Broker.stored_flags "loc/A_metadata.json" (Broker.fs w') = Some ps'
       ∧ prefix_closed ps')
  ∧ (∃ ps',
       Broker.stored_flags "loc/B_metadata.json"
         (Project_manager.main ["-l"; "loc"; "-n"; "A"; "-r"; "B"]
            Scenario.crowded_project_A).2
       = Some ps'
       ∧ ps' = {| Broker.graphSerialized := true;
                  Broker.verilogGenerated := true;
                  Broker.quartusCompiled := false;
                  Broker.writtenToDB := false |}
       ∧ prefix_closed ps')
  ∧ files_from Scenario.crowded_project_A
      (Doc (Scenario.document "B" true true false false))
      (Project_manager.main ["-l"; "loc"; "-n"; "A"; "-r"; "B"]
         Scenario.crowded_project_A).2.
Proof.
  destruct written_records_are_prefix_closed
    as (Hcreate & Hclear & Hrename & Hfiles).
  split; [|split; [|split]].
  - eapply (Hcreate ["-l"; "loc"; "-n"; "A"; "-c"]
              {| Project_manager.location := "loc";
                 Project_manager.opt_name := "A";
                 Project_manager.action := "c";
                 Project_manager.new_name := "" |} ∅).
    + vm_compute. reflexivity.
    + reflexivity.
    + reflexivity.
    + vm_compute. reflexivity.
    + reflexivity.
  - eapply (Hclear "loc/A_metadata.json" 3%Z
              (Scenario.start (Scenario.project_A true true true true))
              {| Broker.graphSerialized := true;
                 Broker.verilogGenerated := true;
                 Broker.quartusCompiled := true;
                 Broker.writtenToDB := true |}).
    + vm_compute. reflexivity.
    + intros k i _ _ _. by destruct i as [|[|[|i]]].
  - eapply (Hrename ["-l"; "loc"; "-n"; "A"; "-r"; "B"]
              {| Project_manager.location := "loc";
                 Project_manager.opt_name := "A";
                 Project_manager.action := "r";
                 Project_manager.new_name := "B" |}
              Scenario.crowded_project_A
              (Scenario.document "A" true true false false)
              (Scenario.settings_A true true false false)).
    + vm_compute. reflexivity.
    + reflexivity.
    + discriminate.
    + reflexivity.
    + reflexivity.
    + vm_compute. reflexivity.
    + vm_compute. reflexivity.
    + vm_compute. reflexivity.
    + reflexivity.
    + intros entries. vm_compute. discriminate.
    + vm_compute. reflexivity.
    + intros k i Hik Hk.
      destruct k as [|[|[|k]]], i as [|[|[|i]]]; simpl; try done; lia.
  - eapply (Hfiles ["-l"; "loc"; "-n"; "A"; "-r"; "B"]
              {| Project_manager.location := "loc";
                 Project_manager.opt_name := "A";
                 Project_manager.action := "r";
                 Project_manager.new_name := "B" |}
              Scenario.crowded_project_A
              (Scenario.document "A" true true false false)
              (Scenario.settings_A true true false false)).
    + vm_compute. reflexivity.
    + reflexivity.
    + vm_compute. reflexivity.
    + vm_compute. reflexivity.
    + reflexivity.
Defined.

(** * Further properties of [Project_manager] *)

Section ManagerCommandLine.
Import Project_manager.

(** Arguments read in full leave the loop where it would have been had
    the rest of the command line followed them. *)
Lemma manager_parse_args_app {W} pre :
  ∀ rest o o' (w w' : W),
    parse_args pre o w = Next o' w' →
    parse_args (pre ++ rest) o w = parse_args rest o' w.
Proof.
  induction pre as [|x|x y l IH1 IH2] using list_pair_ind;
    intros rest o o' w w'.
  - by intros [= <- _].
  - change ([x] ++ rest)%list with (x :: rest).
    cbn [parse_args]. unfold exit, leave.
    repeat case_match; simplify_eq; try done; by intros [= <- _].
  - change ((x :: y :: l) ++ rest)%list with (x :: y :: (l ++ rest)%list).
    remember (y :: l) as t eqn:Ht.
    remember (y :: (l ++ rest)%list) as t' eqn:Ht'.
    cbn [parse_args]. unfold exit, leave.
    repeat case_match; simplify_eq; try done; intros Hrun;
      first [ by apply (IH1 _ _ _ _ _ Hrun)
            | by apply (IH2 rest _ _ _ _ Hrun) ].
Qed.

End ManagerCommandLine.

(** X1.  A record written as a document and read back is the record,
    whenever its port is a 32-bit integer. *)
Theorem settings_round_trip (ps : Project_manager.ProjectSettings) :
  (-2147483648 ≤ Project_manager.dbPort (Project_manager.databaseMetadata ps)
   < 2147483648)%Z →
  Project_manager.from_json (Project_manager.to_json ps) = Some ps.
Proof.
  intros Hport. apply from_json_to_json. unfold Json.wrap_int.
  rewrite Z.mod_small by lia. lia.
Qed.

Lemma settings_round_trip_witness :
  Project_manager.from_json
    (Project_manager.to_json
       (Project_manager.set_name "A" Project_manager.default_settings))
  = Some (Project_manager.set_name "A" Project_manager.default_settings).
Proof.
  apply (settings_round_trip
           (Project_manager.set_name "A" Project_manager.default_settings)).
  simpl. lia.
Defined.

(** X2.  After arguments that the loop reads in full, a last argument that
    is an option in want of its value (-l, -n, -r and their long forms),
    or no option at all, ends the program with status 1 before anything is
    touched. *)
Theorem trailing_argument_is_rejected
  (pre : list string) (x : string) (o : Project_manager.options) (fs : FS) :
  Project_manager.parse_args pre Project_manager.initial_options fs
  = Next o fs →
  takes_value x = true ∨ is_action_flag x = false →
  Project_manager.main (pre ++ [x]) fs = (Exit 1, fs).
Proof.
  intros Hpre Hx.
  unfold Project_manager.main, Project_manager.main_body, run_main, mbind,
    prog_bind.
  rewrite (manager_parse_args_app pre [x] _ _ _ _ Hpre).
  cbn [Project_manager.parse_args]. unfold exit, leave.
  unfold takes_value, is_action_flag in Hx. revert Hx.
  repeat match goal with
         | |- context [String.eqb x ?s] =>
             destruct (String.eqb_spec x s) as [->|?]
         end;
    simpl; try reflexivity; by intros [|].
Qed.

Lemma trailing_argument_is_rejected_witness :
  Project_manager.main (["-n"; "A"] ++ ["-l"])
    (Scenario.project_A false false false false)
  = (Exit 1, Scenario.project_A false false false false)
  ∧ Project_manager.main (["-l"; "loc"; "-n"; "A"] ++ ["--force"])
      (Scenario.project_A false false false false)
    = (Exit 1, Scenario.project_A false false false false).
Proof.
  split.
  - eapply (trailing_argument_is_rejected ["-n"; "A"] "-l").
    + vm_compute. reflexivity.
    + left. reflexivity.
  - eapply (trailing_argument_is_rejected ["-l"; "loc"; "-n"; "A"] "--force").
    + vm_compute. reflexivity.
    + right. reflexivity.
Defined.

(** X3.  The action flag given last decides: after arguments read in
    full, one more of -o, -c, -e (or their long forms) sets its action and
    changes neither the location nor the names read before. *)
Theorem last_action_flag_wins
  (pre : list string) (x c : string) (o : Project_manager.options) (fs : FS) :
  Project_manager.parse_args pre Project_manager.initial_options fs
  = Next o fs →
  action_of_flag x = Some c →
  Project_manager.parse_args (pre ++ [x]) Project_manager.initial_options fs
  = Next {| Project_manager.location := Project_manager.location o;
            Project_manager.opt_name := Project_manager.opt_name o;
            Project_manager.action := c;
            Project_manager.new_name := Project_manager.new_name o |} fs.
Proof.
  intros Hpre Hx.
  rewrite (manager_parse_args_app pre [x] _ _ _ _ Hpre).
  cbn [Project_manager.parse_args]. unfold exit, leave.
  unfold action_of_flag in Hx.
  destruct (String.eqb x "-l") eqn:El.
  { apply String.eqb_eq in El. subst x. discriminate Hx. }
  destruct (String.eqb x "--location") eqn:El'.
  { apply String.eqb_eq in El'. subst x. discriminate Hx. }
  destruct (String.eqb x "-n") eqn:En.
  { apply String.eqb_eq in En. subst x. discriminate Hx. }
  destruct (String.eqb x "--name") eqn:En'.
  { apply String.eqb_eq in En'. subst x. discriminate Hx. }
  cbn [orb].
  destruct (String.eqb x "-o" || String.eqb x "--open").
  { by injection Hx as <-. }
  destruct (String.eqb x "-c" || String.eqb x "--create").
  { by injection Hx as <-. }
  destruct (String.eqb x "-e" || String.eqb x "--erase");
    [by injection Hx as <-|done].
Qed.

Lemma last_action_flag_wins_witness :
  Project_manager.parse_args (["-l"; "loc"; "-c"; "-n"; "A"; "-o"] ++ ["-e"])
    Project_manager.initial_options (∅ : FS)
  = Next {| Project_manager.location := "loc";
            Project_manager.opt_name := "A";
            Project_manager.action := "e";
            Project_manager.new_name := "" |} ∅.
Proof.
  eapply (last_action_flag_wins ["-l"; "loc"; "-c"; "-n"; "A"; "-o"] "-e" "e"
            {| Project_manager.location := "loc";
               Project_manager.opt_name := "A";
               Project_manager.action := "o";
               Project_manager.new_name := "" |}).
  - vm_compute. reflexivity.
  - reflexivity.
Defined.

(** X4.  The open action only reads: whatever it finds, it leaves the
    filesystem as it was, and it ends with status 0 exactly when the
    directory exists and the metadata file holds a record that bears the
    name given, and with status 1 otherwise. *)
Theorem open_only_reads
  (args : list string) (o : Project_manager.options) (fs : FS) :
  Project_manager.parse_args args Project_manager.initial_options fs
  = Next o fs →
  Project_manager.action o = "o" →
  Project_manager.main args fs = (Exit (if opens o fs then 0 else 1), fs).
Proof.
  intros Hparse Hact.
  rewrite (manager_main_parsed args o fs Hparse), Hact.
  change (String.eqb "o" "o" || String.eqb "o" "r") with true. cbv beta iota.
  unfold Project_manager.open_or_rename, Project_manager.readFile,
    Project_manager.parse_settings, opens, run_main.
  cbv beta iota delta
    [mbind prog_bind mret prog_ret try_catch get_world exit leave throw].
  rewrite Hact. change (String.eqb "o" "r") with false.
  destruct (Fs.exists_ (Project_manager.location o) fs); [|done].
  unfold Fs.exists_. cbv beta iota delta [negb andb].
  destruct (fs !! Project_manager.metadata_location o)
    as [[[|j]|entries]|] eqn:Hm;
    cbv beta iota delta [negb andb]; rewrite ?Hm; try done.
  cbv beta iota.
  destruct (Project_manager.from_json j) as [ps|]; [|done].
  by destruct (String.eqb _ _).
Qed.

Lemma open_only_reads_witness :
  Project_manager.main ["-l"; "loc"; "-n"; "A"]
    (Scenario.project_A true false false false)
  = (Exit 0, Scenario.project_A true false false false)
  ∧ Project_manager.main ["-l"; "loc"; "-n"; "X"] Scenario.misnamed_project
    = (Exit 1, Scenario.misnamed_project).
Proof.
  split.
  - eapply (open_only_reads ["-l"; "loc"; "-n"; "A"]
              {| Project_manager.location := "loc";
                 Project_manager.opt_name := "A";
                 Project_manager.action := "o";
                 Project_manager.new_name := "" |}).
    + vm_compute. reflexivity.
    + reflexivity.
  - eapply (open_only_reads ["-l"; "loc"; "-n"; "X"]
              {| Project_manager.location := "loc";
                 Project_manager.opt_name := "X";
                 Project_manager.action := "o";
                 Project_manager.new_name := "" |}).
    + vm_compute. reflexivity.
    + reflexivity.
Defined.


Section ManagerActionsMore.
Import Project_manager.

(** The loop reads the command line the same way in every world. *)
Lemma manager_parse_args_world {W W'} args :
  ∀ o o' (w : W) (w' : W'),
    parse_args args o w = Next o' w → parse_args args o w' = Next o' w'.
Proof.
  induction args as [|x|x y l IH1 IH2] using list_pair_ind; intros o o' w w'.
  - by intros [= <-].
  - cbn [parse_args]. unfold exit, leave.
    repeat case_match; simplify_eq; try done; by intros [= <-].
  - remember (y :: l) as t eqn:Ht.
    cbn [parse_args]. unfold exit, leave.
    repeat case_match; simplify_eq; try done; intros Hrun;
      first [ by apply (IH1 _ _ w) | by apply (IH2 _ _ w) ].
Qed.


Lemma opens_inv o (fs : FS) :
  opens o fs = true →
  Fs.exists_ (location o) fs = true
  ∧ ∃ j ps, fs !! metadata_location o = Some (File (Doc j))
            ∧ from_json j = Some ps
            ∧ name (projectMetadata ps) = opt_name o.
Proof.
  unfold opens. intros H. apply andb_prop in H as [Hloc H].
  split; [done|].
  destruct (fs !! metadata_location o) as [[[|j]|]|]; try done.
  destruct (from_json j) as [ps|] eqn:Hps; [|done].
  apply String.eqb_eq in H. by exists j, ps.
Qed.

End ManagerActionsMore.

(** X5.  Creating a project whose metadata file exists ends with status 1
    and leaves that file as it is; nothing is written, except that the
    project directory is made first when it is missing and can be made. *)
Theorem create_refuses_an_existing_project
  (args : list string) (o : Project_manager.options) (fs : FS) :
  Project_manager.parse_args args Project_manager.initial_options fs
  = Next o fs →
  Project_manager.action o = "c" →
  Fs.exists_ (Project_manager.metadata_location o) fs = true →
  Project_manager.main args fs
  = (Exit 1,
     if Fs.exists_ (Project_manager.location o) fs then fs
     else default fs (Fs.create_directories (Project_manager.location o) fs))
  ∧ (Project_manager.main args fs).2 !! Project_manager.metadata_location o
    = fs !! Project_manager.metadata_location o.
Proof.
  intros Hparse Hact Hm.
  rewrite (main_creates args o fs Hparse Hact). unfold run_main.
  rewrite create_result.
  destruct (Fs.exists_ (Project_manager.location o) fs).
  { by rewrite Hm. }
  destruct (Fs.create_directories (Project_manager.location o) fs)
    as [fs1|] eqn:Hdir; [|done].
  apply create_directories_spec in Hdir as (_ & _ & Hkeep).
  unfold Fs.exists_ in Hm.
  destruct (fs !! Project_manager.metadata_location o) as [n|] eqn:E;
    [|done].
  rewrite (exists_true _ _ _ (Hkeep _ _ E)). simpl.
  split; [done|]. by apply Hkeep.
Qed.

Lemma create_refuses_an_existing_project_witness :
  Project_manager.main ["-l"; "loc"; "-n"; "A"; "-c"]
    (Scenario.project_A true true false false)
  = (Exit 1, Scenario.project_A true true false false).
Proof.
  eapply (create_refuses_an_existing_project ["-l"; "loc"; "-n"; "A"; "-c"]
            {| Project_manager.location := "loc";
               Project_manager.opt_name := "A";
               Project_manager.action := "c";
               Project_manager.new_name := "" |}).
  - vm_compute. reflexivity.
  - reflexivity.
  - reflexivity.
Defined.

(** X6.  A project that has just been created can be opened, and cannot
    be created again: after a create with a plain name, in a directory
    that exists or can be made, that found no metadata file, an open with
    the same location and name ends with status 0, a second create ends
    with status 1, and neither changes what the first create left. *)
Theorem created_project_opens
  (create_args open_args : list string)
  (oc oo : Project_manager.options) (fs : FS) :
  Project_manager.parse_args create_args Project_manager.initial_options fs
  = Next oc fs →
  Project_manager.parse_args open_args Project_manager.initial_options fs
  = Next oo fs →
  Project_manager.action oc = "c" →
  Project_manager.action oo = "o" →
  Project_manager.location oo = Project_manager.location oc →
  Project_manager.opt_name oo = Project_manager.opt_name oc →
  plain (Project_manager.opt_name oc) = true →
  can_hold_project (Project_manager.location oc) fs = true →
  Fs.exists_ (Project_manager.metadata_location oc) fs = false →
  ∃ fs1,
    Project_manager.main create_args fs = (Exit 0, fs1)
    ∧ Project_manager.main open_args fs1 = (Exit 0, fs1)
    ∧ Project_manager.main create_args fs1 = (Exit 1, fs1).
Proof.
  intros Hc Ho Hactc Hacto Hloc Hname Hplain Hcan Hm.
  pose proof (location_is_not_metadata oc) as Hne.
  destruct (create_writes oc fs Hplain Hcan Hm)
    as (fs0 & _ & Hdir & _ & Hcreate).
  eexists. split; [|split].
  - rewrite (main_creates create_args oc fs Hc Hactc). unfold run_main.
    by rewrite Hcreate.
  - assert (Fs.exists_ (Project_manager.location oc)
              (<[ Project_manager.metadata_location oc :=
                    File (Doc (Project_manager.to_json
                                 (Project_manager.set_name
                                    (Project_manager.opt_name oc)
                                    Project_manager.default_settings))) ]>
                 fs0) = true) as Hthere.
    { unfold Fs.exists_, Fs.is_directory in *.
      rewrite lookup_insert_ne by done.
      by destruct (fs0 !! Project_manager.location oc). }
    rewrite (manager_main_parsed open_args oo _
               (manager_parse_args_world open_args _ _ fs _ Ho)), Hacto.
    change (String.eqb "o" "o" || String.eqb "o" "r") with true.
    cbv beta iota. unfold run_main.
    erewrite (open_or_rename_checked oo _ _
                (Project_manager.set_name (Project_manager.opt_name oc)
                   Project_manager.default_settings)).
    + simpl. rewrite Hname, String.eqb_refl, Hacto. reflexivity.
    + by rewrite Hloc.
    + unfold Project_manager.metadata_location. rewrite Hloc, Hname.
      apply lookup_insert_eq.
    + reflexivity.
  - rewrite (main_creates create_args oc _
               (manager_parse_args_world create_args _ _ fs _ Hc) Hactc).
    unfold run_main. rewrite create_result.
    assert (Fs.exists_ (Project_manager.location oc)
              (<[ Project_manager.metadata_location oc :=
                    File (Doc (Project_manager.to_json
                                 (Project_manager.set_name
                                    (Project_manager.opt_name oc)
                                    Project_manager.default_settings))) ]>
                 fs0) = true) as ->.
    { unfold Fs.exists_, Fs.is_directory in *.
      rewrite lookup_insert_ne by done.
      by destruct (fs0 !! Project_manager.location oc). }
    unfold Fs.exists_. by rewrite lookup_insert_eq.
Qed.

Lemma created_project_opens_witness :
  ∃ fs1,
    Project_manager.main ["-l"; "loc"; "-n"; "A"; "-c"] ∅ = (Exit 0, fs1)
    ∧ Project_manager.main ["-n"; "A"; "-l"; "loc"] fs1 = (Exit 0, fs1)
    ∧ Project_manager.main ["-l"; "loc"; "-n"; "A"; "-c"] fs1 = (Exit 1, fs1).
Proof.
  eapply (created_project_opens ["-l"; "loc"; "-n"; "A"; "-c"]
            ["-n"; "A"; "-l"; "loc"]
            {| Project_manager.location := "loc";
               Project_manager.opt_name := "A";
               Project_manager.action := "c";
               Project_manager.new_name := "" |}
            {| Project_manager.location := "loc";
               Project_manager.opt_name := "A";
               Project_manager.action := "o";
               Project_manager.new_name := "" |} ∅).
  - vm_compute. reflexivity.
  - vm_compute. reflexivity.
  - reflexivity.
  - reflexivity.
  - reflexivity.
  - reflexivity.
  - reflexivity.
  - vm_compute. reflexivity.
  - reflexivity.
Defined.

Section Erase.
Import Project_manager.




End Erase.



Section RenameEdges.
Import Project_manager.

(** [if (exists(p)) rename(p, p)] changes nothing. *)
Lemma when_exists_rename_self p (fs : FS) :
  when_exists p (attempt (Fs.rename p p)) fs = Next tt fs.
Proof.
  unfold when_exists.
  cbv beta iota delta [mbind prog_bind mret prog_ret get_world attempt].
  unfold Fs.exists_. destruct (fs !! p) eqn:E; [|done].
  unfold Fs.rename. by rewrite E, String.eqb_refl.
Qed.

(** The rename branch when the new name is the name. *)
Lemma rename_project_same_name o ps (fs : FS) c :
  new_name o = opt_name o →
  fs !! metadata_location o = Some (File c) →
  rename_project o ps fs = Next tt (delete (metadata_location o) fs).
Proof.
  intros Hsame Hm. unfold rename_project.
  unfold new_metadata_location, new_graph_location, new_verilog_location.
  rewrite Hsame.
  fold (metadata_location o) (graph_location o) (verilog_location o).
  cbv beta iota zeta delta [try_catch mbind prog_bind modify].
  rewrite (write_over _ _ _ _ Hm).
  rewrite (attempt_remove_file _ _ _ (lookup_insert_eq _ _ _)).
  rewrite delete_insert_eq.
  rewrite when_exists_rename_self.
  rewrite when_exists_missing by apply lookup_delete_eq.
  by rewrite when_exists_rename_self.
Qed.

(** The rename branch when only the metadata file is there. *)
Lemma rename_project_bare o ps (fs : FS) el c :
  opt_name o ≠ new_name o →
  plain (opt_name o) = true → plain (new_name o) = true →
  fs !! location o = Some (Dir el) →
  fs !! metadata_location o = Some (File c) →
  fs !! graph_location o = None →
  fs !! verilog_location o = None →
  (∀ entries, fs !! new_metadata_location o ≠ Some (Dir entries)) →
  rename_project o ps fs
  = Next tt
      (delete (metadata_location o)
         (<[ new_metadata_location o :=
               File (Doc (to_json (set_name (new_name o) ps))) ]> fs)).
Proof.
  intros Hne Hpo Hpn Hloc Hm Hg Hv Hm'.
  destruct (rename_paths_differ o Hne)
    as (Emm' & Egg' & Evv' & Emg & Emv & Egv & Emg' & Emv' & Egm' & Egv'
        & Evm' & Evg' & Em'g' & Em'v' & Eg'v').
  unfold rename_project.
  cbv beta iota zeta delta [try_catch mbind prog_bind modify].
  assert (∀ x, Fs.write (new_metadata_location o) x fs
               = <[ new_metadata_location o := File x ]> fs) as ->.
  { intros x.
    destruct (fs !! new_metadata_location o) as [[c'|entries]|] eqn:E.
    - by apply (write_over _ _ c').
    - by destruct (Hm' entries).
    - apply write_fresh; [done|].
      assert (Fs.parent (new_metadata_location o) = location o) as ->
        by sibling.
      by apply (is_directory_true _ _ el). }
  rewrite (attempt_remove_file _ c)
    by (rewrite lookup_insert_ne by done; exact Hm).
  rewrite when_exists_missing.
  2: { by rewrite lookup_delete_ne, lookup_insert_ne. }
  rewrite when_exists_missing by apply lookup_delete_eq.
  rewrite when_exists_missing; [done|].
  by rewrite lookup_delete_ne, lookup_insert_ne.
Qed.

End RenameEdges.

(** X8.  Renaming a project to the name it already has ends with status
    0 and removes its metadata file: the record is written over the old
    file, which is then deleted; the graph file and the Verilog directory
    stay where they are. *)
Theorem rename_to_same_name_loses_metadata
  (args : list string) (o : Project_manager.options) (fs : FS) :
  Project_manager.parse_args args Project_manager.initial_options fs
  = Next o fs →
  Project_manager.action o = "r" →
  Project_manager.new_name o = Project_manager.opt_name o →
  opens o fs = true →
  Project_manager.main args fs
  = (Exit 0, delete (Project_manager.metadata_location o) fs).
Proof.
  intros Hparse Hact Hsame Hopen.
  destruct (opens_inv o fs Hopen) as (Hloc & j & ps & Hm & Hps & Hname).
  rewrite (manager_main_parsed args o fs Hparse), Hact.
  change (String.eqb "r" "o" || String.eqb "r" "r") with true.
  cbv beta iota. unfold run_main.
  rewrite (open_or_rename_checked o fs j ps Hloc Hm Hps), Hname, Hact.
  rewrite String.eqb_refl. change (String.eqb "r" "r") with true.
  cbv beta iota.
  by rewrite (rename_project_same_name o ps fs _ Hsame Hm).
Qed.

Lemma rename_to_same_name_loses_metadata_witness :
  let fs' := (Project_manager.main ["-l"; "loc"; "-n"; "A"; "-r"; "A"]
                Scenario.full_project_A).2 in
  fs' !! "loc/A_metadata.json" = None
  ∧ fs' !! "loc/A_graph_object_serialized.json" = Some (File Garbage)
  ∧ fs' !! "loc/A_NoC_description" = Some (Dir ["top.v"]).
Proof.
  rewrite (rename_to_same_name_loses_metadata
             ["-l"; "loc"; "-n"; "A"; "-r"; "A"]
             {| Project_manager.location := "loc";
                Project_manager.opt_name := "A";
                Project_manager.action := "r";
                Project_manager.new_name := "A" |}
             Scenario.full_project_A).
  - vm_compute. repeat split.
  - vm_compute. reflexivity.
  - reflexivity.
  - reflexivity.
  - vm_compute. reflexivity.
Defined.

(** X9.  Renaming a project that has neither graph file nor Verilog
    directory, for two different plain names in a project directory that
    exists, moves the metadata file alone: the record is stored under the
    new name, the old file is removed, and every other path is left
    alone.  A metadata file that already exists under the new name is
    overwritten without a check. *)
Theorem rename_without_artefacts
  (args : list string) (o : Project_manager.options) (fs : FS)
  (j : json) (ps : Project_manager.ProjectSettings) (el : list string) :
  Project_manager.parse_args args Project_manager.initial_options fs
  = Next o fs →
  Project_manager.action o = "r" →
  Project_manager.opt_name o ≠ Project_manager.new_name o →
  plain (Project_manager.opt_name o) = true →
  plain (Project_manager.new_name o) = true →
  fs !! Project_manager.location o = Some (Dir el) →
  fs !! Project_manager.metadata_location o = Some (File (Doc j)) →
  Project_manager.from_json j = Some ps →
  Project_manager.name (Project_manager.projectMetadata ps)
  = Project_manager.opt_name o →
  fs !! Project_manager.graph_location o = None →
  fs !! Project_manager.verilog_location o = None →
  (∀ entries,
     fs !! Project_manager.new_metadata_location o ≠ Some (Dir entries)) →
  Project_manager.main args fs
  = (Exit 0,
     delete (Project_manager.metadata_location o)
       (<[ Project_manager.new_metadata_location o :=
             File (Doc (Project_manager.to_json
                          (Project_manager.set_name
                             (Project_manager.new_name o) ps))) ]> fs)).
Proof.
  intros Hparse Hact Hne Hpo Hpn Hloc Hm Hps Hname Hg Hv Hm'.
  rewrite (main_renames args o fs j ps Hparse Hact
             (exists_true _ _ _ Hloc) Hm Hps Hname).
  unfold run_main.
  by rewrite (rename_project_bare o ps fs el _ Hne Hpo Hpn Hloc Hm Hg Hv Hm').
Qed.

Lemma rename_without_artefacts_witness :
  let fs' := (Project_manager.main ["-l"; "loc"; "-n"; "A"; "-r"; "B"]
                (Scenario.project_A true true false false)).2 in
  fs' !! "loc/A_metadata.json" = None
  ∧ Broker.stored_flags "loc/B_metadata.json" fs'
    = Some {| Broker.graphSerialized := true;
              Broker.verilogGenerated := true;
              Broker.quartusCompiled := false;
              Broker.writtenToDB := false |}.
Proof.
  erewrite (rename_without_artefacts ["-l"; "loc"; "-n"; "A"; "-r"; "B"]
              {| Project_manager.location := "loc";
                 Project_manager.opt_name := "A";
                 Project_manager.action := "r";
                 Project_manager.new_name := "B" |}
              (Scenario.project_A true true false false)
              (Scenario.document "A" true true false false)
              (Scenario.settings_A true true false false)).
  - vm_compute. repeat split.
  - vm_compute. reflexivity.
  - reflexivity.
  - discriminate.
  - reflexivity.
  - reflexivity.
  - vm_compute. reflexivity.
  - vm_compute. reflexivity.
  - vm_compute. reflexivity.
  - reflexivity.
  - reflexivity.
  - reflexivity.
  - intros entries. vm_compute. discriminate.
Defined.

(** ** What [Project_manager] never touches *)

Lemma within_self d : Fs.within d d = true.
Proof. apply within_spec. by left. Qed.

Lemma project_path_intro o p :
  p ∈ Fs.directories (Project_manager.location o)
  ∨ Fs.within (Project_manager.metadata_location o) p = true
  ∨ Fs.within (Project_manager.graph_location o) p = true
  ∨ Fs.within (Project_manager.verilog_location o) p = true
  ∨ Fs.within (Project_manager.new_metadata_location o) p = true
  ∨ Fs.within (Project_manager.new_graph_location o) p = true
  ∨ Fs.within (Project_manager.new_verilog_location o) p = true →
  project_path o p = true.
Proof.
  unfold project_path. rewrite !orb_true_iff, bool_decide_eq_true. tauto.
Qed.

Ltac in_project := apply project_path_intro; auto 10 using within_self.


Section ManagerFrame.
Import Project_manager.


End ManagerFrame.




(** * Further properties of [Broker] *)

Section UncheckMore.
Import Broker.

Lemma uncheckMetadata_corrupt path stage w :
  Fs.exists_ path (fs w) = true →
  stored_flags path (fs w) = None →
  uncheckMetadata path stage w = Raised w.
Proof.
  intros Hex Hst. unfold uncheckMetadata, mbind, prog_bind, get_world, throw.
  rewrite Hex. simpl. unfold stored_flags in Hst.
  destruct (Fs.parse path (fs w)) as [j|]; [|done].
  simpl in Hst. by rewrite Hst.
Qed.

Lemma clear_flags_min s1 s2 ps :
  (0 ≤ s1)%Z → (0 ≤ s2)%Z →
  clear_flags s2 (clear_flags s1 ps) = clear_flags (Z.min s1 s2) ps.
Proof.
  intros H1 H2. apply flags_ext. intros k Hk.
  rewrite !clear_flags_at by lia.
  repeat match goal with
         | |- context [(?a <=? ?b)%Z] => destruct (Z.leb_spec a b)
         end; try reflexivity; lia.
Qed.

End UncheckMore.

(** X11.  A metadata file that exists but does not hold the four flags as
    booleans (text that is not JSON, a missing member, a value of another
    kind) makes [uncheckMetadata] throw before it writes, and nothing
    catches the exception: the stage block ends there, and a run that
    asks for the graph stage ends by [std::terminate] without launching
    any stage tool, the filesystem being as the project stage left it. *)
Theorem corrupt_metadata_aborts_the_run
  (os : Broker.platform) (system : string → FS → Z * FS)
  (args : list string) (a0 a : Broker.arguments) (w0 w1 : Broker.world) :
  Broker.parse_args false args Broker.initial_arguments w0 = Next a0 w0 →
  Broker.launch_graph a0 = true →
  Broker.manager_block os system a0 w0 = Next a w1 →
  Fs.exists_ (Broker.metadata_path a) (Broker.fs w1) = true →
  Broker.stored_flags (Broker.metadata_path a) (Broker.fs w1) = None →
  (∀ t stage cmd, Broker.stage_block system t stage cmd a w1 = Raised w1)
  ∧ Broker.main os system args w0 = (Abort, w1).
Proof.
  intros Hparse Hg Hman Hex Hst.
  assert (∀ t stage cmd, Broker.stage_block system t stage cmd a w1
                         = Raised w1) as Hblock.
  { intros t stage cmd. apply stage_block_throw.
    by apply uncheckMetadata_corrupt. }
  split; [done|].
  assert (Broker.launch_graph a = true) as Hg'.
  { revert Hman. unfold Broker.manager_block, mbind, prog_bind,
      Broker.runProcess, mret, prog_ret, exit, leave.
    destruct (Broker.launch_manager a0); [|by intros [= <- _]].
    destruct (negb _); [done|].
    destruct (String.eqb _ _); by intros [= <- _]. }
  unfold Broker.main, Broker.main_body.
  destruct args as [|arg args].
  { simpl in Hparse. injection Hparse as <-. done. }
  unfold run_main, mbind, prog_bind. rewrite Hparse, Hman.
  unfold Broker.graph_block. by rewrite Hg', Hblock.
Qed.

Lemma corrupt_metadata_aborts_the_run_witness :
  Broker.main Broker.PLATFORM_LINUX Scenario.idle ["--graph"; "--quartus"]
    (Scenario.start Scenario.corrupt_metadata)
  = (Abort, Scenario.start Scenario.corrupt_metadata).
Proof.
  eapply (λ a0 a, corrupt_metadata_aborts_the_run Broker.PLATFORM_LINUX
                    Scenario.idle ["--graph"; "--quartus"] a0 a
                    (Scenario.start Scenario.corrupt_metadata)).
  - vm_compute. reflexivity.
  - reflexivity.
  - vm_compute. reflexivity.
  - vm_compute. reflexivity.
  - vm_compute. reflexivity.
Defined.

(** X12.  Clearing from one stage and then from another leaves the flags
    that clearing once from the earlier of the two leaves; so clearing
    twice from the same stage is clearing once, and the order of two
    clearings does not matter. *)
Theorem clearing_twice_is_clearing_from_the_earlier
  (path : string) (s1 s2 : Z) (w : Broker.world)
  (ps : Broker.ProjectSettings) :
  (0 ≤ s1)%Z → (0 ≤ s2)%Z →
  Broker.stored_flags path (Broker.fs w) = Some ps →
  ∃ w1 w2,
    Broker.uncheckMetadata path s1 w = Next tt w1
    ∧ Broker.uncheckMetadata path s2 w1 = Next tt w2
    ∧ Broker.stored_flags path (Broker.fs w2)
      = Some (Broker.clear_flags (Z.min s1 s2) ps).
Proof.
  intros H1 H2 Hps.
  destruct (uncheckMetadata_stored path s1 w ps Hps)
    as (w1 & Hrun1 & _ & Hst1 & _).
  destruct (uncheckMetadata_stored path s2 w1 _ Hst1)
    as (w2 & Hrun2 & _ & Hst2 & _).
  exists w1, w2. split; [done|]. split; [done|].
  by rewrite Hst2, clear_flags_min.
Qed.

Lemma clearing_twice_is_clearing_from_the_earlier_witness :
  ∃ w1 w2,
    Broker.uncheckMetadata "loc/A_metadata.json" 3
      (Scenario.start (Scenario.project_A true true true true))
    = Next tt w1
    ∧ Broker.uncheckMetadata "loc/A_metadata.json" 2 w1 = Next tt w2
    ∧ Broker.stored_flags "loc/A_metadata.json" (Broker.fs w2)
      = Some (Broker.clear_flags (Z.min 3 2)
                {| Broker.graphSerialized := true;
                   Broker.verilogGenerated := true;
                   Broker.quartusCompiled := true;
                   Broker.writtenToDB := true |}).
Proof.
  apply (clearing_twice_is_clearing_from_the_earlier "loc/A_metadata.json"
           3 2 (Scenario.start (Scenario.project_A true true true true))).
  - lia.
  - lia.
  - vm_compute. reflexivity.
Defined.

Section UncheckKeepsRecord.
Import Project_manager.

Lemma update_at_key_same flag b jg jg' :
  Json.update flag (λ _, Some (JBool b)) jg = Some jg' →
  Json.at_key flag jg' = Some (JBool b).
Proof.
  destruct jg as [| | | | |m]; simpl; try done; intros [= <-]; simpl.
  - apply lookup_singleton_eq.
  - apply lookup_insert_eq.
Qed.

Lemma update_at_key_other flag b jg jg' k :
  k ≠ flag →
  Json.update flag (λ _, Some (JBool b)) jg = Some jg' →
  Json.at_key k jg' = Json.at_key k jg.
Proof.
  intros Hk.
  destruct jg as [| | | | |m]; simpl; try done; intros [= <-]; simpl.
  - by apply lookup_singleton_ne.
  - by apply lookup_insert_ne.
Qed.

Lemma write_flag_at_key_other group flag b j j' k :
  k ≠ group →
  Broker.write_flag group flag b j = Some j' →
  Json.at_key k j' = Json.at_key k j.
Proof.
  intros Hk. unfold Broker.write_flag.
  destruct j as [| | | | |m]; simpl; try done.
  - intros [= <-]. simpl. by apply lookup_singleton_ne.
  - destruct (Json.update flag _ _) as [v|]; [|done].
    intros [= <-]. simpl. by apply lookup_insert_ne.
Qed.

Lemma write_flag_at_key_same group flag b j j' jg :
  Json.at_key group j = Some jg →
  Broker.write_flag group flag b j = Some j' →
  ∃ jg', Json.at_key group j' = Some jg'
         ∧ Json.update flag (λ _, Some (JBool b)) jg = Some jg'.
Proof.
  unfold Broker.write_flag.
  destruct j as [| | | | |m]; simpl; try done.
  intros ->. simpl.
  destruct (Json.update flag _ jg) as [v|]; [|done].
  intros [= <-]. exists v. simpl. by rewrite lookup_insert_eq.
Qed.

Lemma bind_at_key {A} key j (f : json → option A) v :
  Json.at_key key j ≫= f = Some v →
  ∃ jk, Json.at_key key j = Some jk ∧ f jk = Some v.
Proof. destruct (Json.at_key key j) as [jk|]; [|done]. simpl. eauto. Qed.

End UncheckKeepsRecord.

Section StoreKeepsRecord.
Import Project_manager.

Lemma graph_group_rewritten jg jg1 jg2 g v :
  Json.update "graphSerialized" (λ _, Some (JBool g)) jg = Some jg1 →
  Json.update "verilogGenerated" (λ _, Some (JBool v)) jg1 = Some jg2 →
  from_json_GraphVerilogMetadata jg2
  = Some {| graphSerialized := g; verilogGenerated := v |}.
Proof.
  intros H1 H2. unfold from_json_GraphVerilogMetadata.
  rewrite (λ Hk, update_at_key_other _ _ _ _ "graphSerialized" Hk H2) by done.
  rewrite (update_at_key_same _ _ _ _ H1), (update_at_key_same _ _ _ _ H2).
  reflexivity.
Qed.

Lemma quartus_group_rewritten jq jq1 qm q :
  from_json_QuartusMetadata jq = Some qm →
  Json.update "quartusCompiled" (λ _, Some (JBool q)) jq = Some jq1 →
  from_json_QuartusMetadata jq1
  = Some {| quartusCompiled := q; deviceName := deviceName qm |}.
Proof.
  intros Hq H1. unfold from_json_QuartusMetadata in *.
  rewrite (update_at_key_same _ _ _ _ H1).
  rewrite (λ Hk, update_at_key_other _ _ _ _ "deviceName" Hk H1) by done.
  destruct (Json.at_key "quartusCompiled" jq ≫= Json.get_bool); [|done].
  simpl in *.
  destruct (Json.at_key "deviceName" jq ≫= Json.get_string); [|done].
  simpl in *. by injection Hq as <-.
Qed.

Lemma database_group_rewritten jd jd1 dm d :
  from_json_DatabaseMetadata jd = Some dm →
  Json.update "writtenToDB" (λ _, Some (JBool d)) jd = Some jd1 →
  from_json_DatabaseMetadata jd1
  = Some {| dbIp := dbIp dm; dbUsername := dbUsername dm;
            dbPassword := dbPassword dm; dbName := dbName dm;
            dbPort := dbPort dm; writtenToDB := d |}.
Proof.
  intros Hd H1. unfold from_json_DatabaseMetadata in *.
  rewrite (update_at_key_same _ _ _ _ H1).
  rewrite (λ Hk, update_at_key_other _ _ _ _ "dbIp" Hk H1) by done.
  rewrite (λ Hk, update_at_key_other _ _ _ _ "dbUsername" Hk H1) by done.
  rewrite (λ Hk, update_at_key_other _ _ _ _ "dbPassword" Hk H1) by done.
  rewrite (λ Hk, update_at_key_other _ _ _ _ "dbName" Hk H1) by done.
  rewrite (λ Hk, update_at_key_other _ _ _ _ "dbPort" Hk H1) by done.
  destruct (Json.at_key "dbIp" jd ≫= Json.get_string); [|done].
  simpl in *.
  destruct (Json.at_key "dbUsername" jd ≫= Json.get_string); [|done].
  simpl in *.
  destruct (Json.at_key "dbPassword" jd ≫= Json.get_string); [|done].
  simpl in *.
  destruct (Json.at_key "dbName" jd ≫= Json.get_string); [|done].
  simpl in *.
  destruct (Json.at_key "dbPort" jd ≫= Json.get_int); [|done].
  simpl in *.
  destruct (Json.at_key "writtenToDB" jd ≫= Json.get_bool); [|done].
  simpl in *. by injection Hd as <-.
Qed.

(** Writing four flags into a document that [Project_manager] accepts
    gives a document it accepts, with those flags and every other field
    as before. *)
Lemma store_flags_from_json fl j j' ps :
  from_json j = Some ps →
  Broker.store_flags fl j = Some j' →
  from_json j' = Some (with_flags fl ps).
Proof.
  intros Hps Hst. unfold from_json in Hps.
  destruct (Json.at_key "projectMetadata" j ≫= from_json_ProjectMetadata)
    as [pm|] eqn:Hpm; [|done].
  destruct (Json.at_key "graphVerilogMetadata" j
              ≫= from_json_GraphVerilogMetadata) as [gv|] eqn:Hgv; [|done].
  destruct (Json.at_key "quartusMetadata" j ≫= from_json_QuartusMetadata)
    as [qm|] eqn:Hqm; [|done].
  destruct (Json.at_key "databaseMetadata" j ≫= from_json_DatabaseMetadata)
    as [dm|] eqn:Hdm; [|done].
  simpl in Hps. injection Hps as <-.
  apply bind_at_key in Hgv as (jg & Hjg & Hgv).
  apply bind_at_key in Hqm as (jq & Hjq & Hqm).
  apply bind_at_key in Hdm as (jd & Hjd & Hdm).
  unfold Broker.store_flags in Hst.
  destruct (Broker.write_flag "graphVerilogMetadata" "graphSerialized" _ j)
    as [j1|] eqn:H1; [|done].
  simpl in Hst.
  destruct (Broker.write_flag "graphVerilogMetadata" "verilogGenerated" _ j1)
    as [j2|] eqn:H2; [|done].
  simpl in Hst.
  destruct (Broker.write_flag "quartusMetadata" "quartusCompiled" _ j2)
    as [j3|] eqn:H3; [|done].
  simpl in Hst.
  destruct (write_flag_at_key_same _ _ _ _ _ _ Hjg H1) as (jg1 & Hjg1 & Hu1).
  destruct (write_flag_at_key_same _ _ _ _ _ _ Hjg1 H2) as (jg2 & Hjg2 & Hu2).
  assert (Json.at_key "quartusMetadata" j2 = Some jq) as Hjq2.
  { rewrite (λ Hk, write_flag_at_key_other _ _ _ _ _ "quartusMetadata" Hk H2) by done.
    by rewrite (λ Hk, write_flag_at_key_other _ _ _ _ _ "quartusMetadata" Hk H1) by done. }
  destruct (write_flag_at_key_same _ _ _ _ _ _ Hjq2 H3) as (jq1 & Hjq1 & Hu3).
  assert (Json.at_key "databaseMetadata" j3 = Some jd) as Hjd3.
  { rewrite (λ Hk, write_flag_at_key_other _ _ _ _ _ "databaseMetadata" Hk H3) by done.
    rewrite (λ Hk, write_flag_at_key_other _ _ _ _ _ "databaseMetadata" Hk H2) by done.
    by rewrite (λ Hk, write_flag_at_key_other _ _ _ _ _ "databaseMetadata" Hk H1) by done. }
  destruct (write_flag_at_key_same _ _ _ _ _ _ Hjd3 Hst) as (jd1 & Hjd1 & Hu4).
  unfold from_json.
  rewrite (λ Hk, write_flag_at_key_other _ _ _ _ _ "projectMetadata" Hk Hst) by done.
  rewrite (λ Hk, write_flag_at_key_other _ _ _ _ _ "projectMetadata" Hk H3) by done.
  rewrite (λ Hk, write_flag_at_key_other _ _ _ _ _ "projectMetadata" Hk H2) by done.
  rewrite (λ Hk, write_flag_at_key_other _ _ _ _ _ "projectMetadata" Hk H1) by done.
  rewrite Hpm. cbn [mbind option_bind].
  rewrite (λ Hk, write_flag_at_key_other _ _ _ _ _ "graphVerilogMetadata" Hk Hst) by done.
  rewrite (λ Hk, write_flag_at_key_other _ _ _ _ _ "graphVerilogMetadata" Hk H3) by done.
  rewrite Hjg2. cbn [mbind option_bind].
  rewrite (graph_group_rewritten _ _ _ _ _ Hu1 Hu2). cbn [mbind option_bind].
  rewrite (λ Hk, write_flag_at_key_other _ _ _ _ _ "quartusMetadata" Hk Hst) by done.
  rewrite Hjq1. cbn [mbind option_bind].
  rewrite (quartus_group_rewritten _ _ _ _ Hqm Hu3). cbn [mbind option_bind].
  rewrite Hjd1. cbn [mbind option_bind].
  rewrite (database_group_rewritten _ _ _ _ Hdm Hu4). cbn [mbind option_bind].
  reflexivity.
Qed.

End StoreKeepsRecord.

(** X13.  [uncheckMetadata] keeps whatever [Project_manager] stores in a
    metadata file apart from the four flags: on a file that holds a
    record [Project_manager] accepts, it returns normally and leaves a
    file that [Project_manager] accepts, with the same name, device name
    and database fields and with the flags cleared from the stage on. *)
Theorem invalidation_keeps_the_record
  (path : string) (stage : Z) (w : Broker.world) (j : json)
  (ps : Project_manager.ProjectSettings) :
  Broker.fs w !! path = Some (File (Doc j)) →
  Project_manager.from_json j = Some ps →
  ∃ w' j',
    Broker.uncheckMetadata path stage w = Next tt w'
    ∧ Broker.fs w' !! path = Some (File (Doc j'))
    ∧ Project_manager.from_json j'
      = Some (with_flags (Broker.clear_flags stage (flags_of ps)) ps).
Proof.
  intros Hfile Hps.
  pose proof (from_json_read_flags j ps Hps) as Hflags.
  destruct (read_store_flags j (flags_of ps)
              (Broker.clear_flags stage (flags_of ps)) Hflags)
    as (j' & Hst & _).
  assert (Fs.parse path (Broker.fs w) = Some j) as Hparse.
  { unfold Fs.parse. by rewrite Hfile. }
  exists (Broker.set_fs (Fs.write path (Doc j')) w), j'.
  split; [|split].
  - unfold Broker.uncheckMetadata, mbind, prog_bind, get_world, modify.
    rewrite (exists_true _ _ _ Hfile), Hparse, Hflags, Hst. reflexivity.
  - simpl. rewrite (parse_write _ _ _ _ Hparse). apply lookup_insert_eq.
  - by apply (store_flags_from_json _ j).
Qed.

Lemma invalidation_keeps_the_record_witness :
  ∃ w' j',
    Broker.uncheckMetadata "loc/A_metadata.json" 2
      (Scenario.start (Scenario.project_A true true true true))
    = Next tt w'
    ∧ Broker.fs w' !! "loc/A_metadata.json" = Some (File (Doc j'))
    ∧ Project_manager.from_json j'
      = Some (with_flags
                (Broker.clear_flags 2
                   (flags_of (Scenario.settings_A true true true true)))
                (Scenario.settings_A true true true true)).
Proof.
  apply (invalidation_keeps_the_record "loc/A_metadata.json" 2
           (Scenario.start (Scenario.project_A true true true true))
           (Scenario.document "A" true true true true)).
  - vm_compute. reflexivity.
  - vm_compute. reflexivity.
Defined.

Section BrokerCommandLine.
Import Broker.

Lemma is_keyword_false s :
  is_keyword s = false →
  String.eqb s "--project" = false ∧ String.eqb s "--graph" = false
  ∧ String.eqb s "--quartus" = false ∧ String.eqb s "--database" = false
  ∧ String.eqb s "-h" || String.eqb s "--help" = false.
Proof.
  unfold is_keyword.
  destruct (String.eqb s "--project"), (String.eqb s "--graph"),
    (String.eqb s "--quartus"), (String.eqb s "--database"),
    (String.eqb s "-h"), (String.eqb s "--help"); simpl; auto 10.
Qed.


End BrokerCommandLine.



(** X15.  A first argument that is none of [--project], [--graph],
    [--quartus], [--database], [-h] and [--help] ends [Broker] with status
    1 before anything is launched or written, whatever follows it. *)
Theorem stray_first_argument_is_rejected
  (os : Broker.platform) (system : string → FS → Z * FS)
  (x : string) (rest : list string) (w : Broker.world) :
  is_keyword x = false →
  Broker.main os system (x :: rest) w = (Exit 1, w).
Proof.
  intros Hx. apply is_keyword_false in Hx as (Hp & Hg & Hq & Hd & Hh).
  unfold Broker.main, Broker.main_body, run_main, mbind, prog_bind.
  cbn [Broker.parse_args]. by rewrite Hp, Hg, Hq, Hd, Hh.
Qed.

Lemma stray_first_argument_is_rejected_witness :
  Broker.main Broker.PLATFORM_LINUX Scenario.idle
    ["-n"; "A"; "--project"; "--graph"]
    (Scenario.start (Scenario.project_A true true true true))
  = (Exit 1, Scenario.start (Scenario.project_A true true true true)).
Proof.
  apply (stray_first_argument_is_rejected Broker.PLATFORM_LINUX Scenario.idle
           "-n" ["A"; "--project"; "--graph"]).
  reflexivity.
Defined.

(** X16.  When the project manager answers a status other than 0,
    [Broker] ends with status 1 at once: the project manager is the only
    process launched, no flag is cleared, and the filesystem is the one
    the project manager left. *)
Theorem manager_failure_halts
  (os : Broker.platform) (system : string → FS → Z * FS)
  (args : list string) (a : Broker.arguments) (w : Broker.world)
  (rc : Z) (f : FS) :
  Broker.parse_args false args Broker.initial_arguments w = Next a w →
  Broker.launch_manager a = true →
  system (Broker.manager_command os a) (Broker.fs w) = (rc, f) →
  rc ≠ 0%Z →
  Broker.main os system args w
  = (Exit 1,
     {| Broker.fs := f;
        Broker.launched :=
          (Broker.launched w
           ++ [(Broker.Project_manager, Broker.manager_command os a)])%list |}).
Proof.
  intros Hparse Hm Hrun Hrc.
  unfold Broker.main, Broker.main_body.
  destruct args as [|arg args].
  { simpl in Hparse. injection Hparse as <-. done. }
  unfold run_main, mbind, prog_bind. rewrite Hparse.
  unfold Broker.manager_block, mbind, prog_bind, Broker.runProcess.
  rewrite Hm, Hrun. simpl.
  by destruct (Z.eqb_spec rc 0).
Qed.

Lemma manager_failure_halts_witness :
  Broker.main Broker.PLATFORM_LINUX (λ _ fs, (1%Z, fs))
    ["--project"; "-n"; "A"; "-l"; "loc"; "--graph"; "--quartus"]
    (Scenario.start (Scenario.project_A true true true true))
  = (Exit 1,
     {| Broker.fs := Scenario.project_A true true true true;
        Broker.launched :=
          [(Broker.Project_manager,
            Broker.manager_command Broker.PLATFORM_LINUX
              Scenario.args_A_stages)] |}).
Proof.
  apply (manager_failure_halts Broker.PLATFORM_LINUX (λ _ fs, (1%Z, fs))
           ["--project"; "-n"; "A"; "-l"; "loc"; "--graph"; "--quartus"]
           Scenario.args_A_stages
           (Scenario.start (Scenario.project_A true true true true))
           1%Z (Scenario.project_A true true true true)).
  - vm_compute. reflexivity.
  - reflexivity.
  - reflexivity.
  - discriminate.
Defined.
